(** * SimpleRuleEngine: rule evaluation and temporal validity

    A shallow embedding of [backend/simple_rule_engine.py] and the
    properties of its temporal-overlap check, its two rule wrappers and
    its three analysis operations.

    Python values are a small universe [pyval]; a Python call that may
    raise is a computation in the error monad [sum exn] of ExtLib, so
    that [try ... except] is [catch] and an uncaught exception is an
    [inl] that travels to the caller. *)

From Stdlib Require Import String Ascii ZArith List Bool Lia Permutation.
From ExtLib Require Import Structures.Monad Structures.MonadExc.
From ExtLib Require Import Data.Monads.EitherMonad.
Import ListNotations.
Import MonadNotation.

Local Open Scope string_scope.
Local Open Scope Z_scope.
Local Open Scope monad_scope.

(** ** Python values and built-in operations *)

Module Py.

(** The objects the engine handles: [None], booleans, integers, strings,
    lists and tuples (database rows), and dictionaries with string keys,
    kept in insertion order. *)
#[warnings="-register-all"]
Inductive pyval : Type :=
| PNone
| PBool (b : bool)
| PInt (z : Z)
| PStr (s : string)
| PList (items : list pyval)
| PTuple (items : list pyval)
| PDict (entries : list (string * pyval)).

(** The exception classes the built-in operations below can raise. *)
Inductive exn : Type :=
| TypeError
| KeyError
| IndexError
| ValueError.

(** [bool(v)]: what [if v] and [not v] test. *)
Definition truthy (v : pyval) : bool :=
  match v with
  | PNone => false
  | PBool b => b
  | PInt z => negb (z =? 0)
  | PStr s => negb (s =? "")%string
  | PList items => negb (Nat.eqb (length items) 0)
  | PTuple items => negb (Nat.eqb (length items) 0)
  | PDict entries => negb (Nat.eqb (length entries) 0)
  end.

(** [v is None]. *)
Definition is_none (v : pyval) : bool :=
  match v with
  | PNone => true
  | _ => false
  end.

(** Lookup of a key in the entries of a dictionary. *)
Fixpoint assoc (k : string) (entries : list (string * pyval)) : option pyval :=
  match entries with
  | [] => None
  | (k', v) :: rest => if (k =? k')%string then Some v else assoc k rest
  end.

(** [obj[k]] for a string key [k]. *)
Definition getitem_str (obj : pyval) (k : string) : sum exn pyval :=
  match obj with
  | PDict entries =>
      match assoc k entries with
      | Some v => ret v
      | None => raise KeyError
      end
  | _ => raise TypeError
  end.

(** [items[i]] on a sequence, negative indices counting from the end. *)
Definition seq_index {A : Type} (items : list A) (i : Z) : sum exn A :=
  let n := Z.of_nat (length items) in
  let j := if i <? 0 then i + n else i in
  if (0 <=? j) && (j <? n) then
    match nth_error items (Z.to_nat j) with
    | Some x => ret x
    | None => raise IndexError
    end
  else raise IndexError.

Fixpoint string_chars (s : string) : list ascii :=
  match s with
  | EmptyString => []
  | String c rest => c :: string_chars rest
  end.

(** [obj[i]] for an integer index [i]. *)
Definition getitem_int (obj : pyval) (i : Z) : sum exn pyval :=
  match obj with
  | PList items => seq_index items i
  | PTuple items => seq_index items i
  | PStr s => c <- seq_index (string_chars s) i ;; ret (PStr (String c ""))
  | PDict _ => raise KeyError
  | _ => raise TypeError
  end.

(** [sub in s] on strings. *)
Fixpoint contains (sub s : string) : bool :=
  String.prefix sub s ||
  match s with
  | EmptyString => false
  | String _ rest => contains sub rest
  end.

Definition is_str (k : string) (v : pyval) : bool :=
  match v with
  | PStr s => (s =? k)%string
  | _ => false
  end.

(** [k in obj] for a string [k]: key test on a dictionary, membership on
    a sequence, substring test on a string. *)
Definition py_in (k : string) (obj : pyval) : sum exn bool :=
  match obj with
  | PDict entries =>
      ret (match assoc k entries with Some _ => true | None => false end)
  | PList items => ret (existsb (is_str k) items)
  | PTuple items => ret (existsb (is_str k) items)
  | PStr s => ret (contains k s)
  | _ => raise TypeError
  end.

(** The loop of the built-ins [max] and [min]: the first item is the
    current choice, and each later [item] replaces it when the test
    [item > current] (for [max]) or [item < current] (for [min]) is
    true; a comparison that raises ends the loop with its exception. *)
Fixpoint extremum_from {A : Type} (better : A -> A -> sum exn bool)
    (current : A) (rest : list A) : sum exn A :=
  match rest with
  | [] => ret current
  | item :: rest' =>
      b <- better item current ;;
      extremum_from better (if (b : bool) then item else current) rest'
  end.

(** [max(xs)] with [gt item current] for [item > current], and [min(xs)]
    with [lt item current] for [item < current]; [ValueError] when the
    sequence is empty. *)
Definition py_max {A : Type} (gt : A -> A -> sum exn bool) (xs : list A)
    : sum exn A :=
  match xs with
  | [] => raise ValueError
  | x :: rest => extremum_from gt x rest
  end.

Definition py_min {A : Type} (lt : A -> A -> sum exn bool) (xs : list A)
    : sum exn A :=
  match xs with
  | [] => raise ValueError
  | x :: rest => extremum_from lt x rest
  end.

(** [sep.join(parts)]. *)
Definition join (sep : string) (parts : list string) : string :=
  String.concat sep parts.

(** [all(vs)]. *)
Definition py_all (vs : list pyval) : bool := forallb truthy vs.

(** The entry of a result dictionary under a key, when it has one. *)
Definition field (result : pyval) (k : string) : option pyval :=
  match result with
  | PDict entries => assoc k entries
  | _ => None
  end.

(** [None], a boolean or an integer: an object that supports neither
    [in] nor subscripting. *)
Definition is_scalar (v : pyval) : bool :=
  match v with
  | PNone | PBool _ | PInt _ => true
  | _ => false
  end.

(** A value that is [None] or the empty string. *)
Definition null_or_empty (v : pyval) : Prop := v = PNone \/ v = PStr "".

End Py.

Import Py.

(** ** The rule processor *)

Module RuleProcessor.

(** A row of a rule table: the values of its named input fields and the
    output value. *)
Record RuleRow : Type := mkRow {
  row_inputs : list (string * string);
  row_output : string
}.

(** A rule table: the names of its input fields and its rows, in order. *)
Record RuleTable : Type := mkTable {
  input_fields : list string;
  rows : list RuleRow
}.

Definition field_matches (inputs : list (string * pyval))
    (field : string * string) : bool :=
  match assoc (fst field) inputs with
  | Some v => is_str (snd field) v
  | None => false
  end.

Definition row_matches (inputs : list (string * pyval)) (row : RuleRow) : bool :=
  forallb (field_matches inputs) (row_inputs row).

Definition has_field (inputs : list (string * pyval)) (f : string) : bool :=
  match assoc f inputs with
  | Some _ => true
  | None => false
  end.

(** Modelled from the spec: [RuleProcessor.apply_rule] lives in
    [backend/rule_processor.py], which is not among the sources.  The
    lookup is exact: a row matches when each of its input fields equals
    the entry of [inputs] under that name; the output of the first
    matching row is returned, [None] when no row matches or when
    [inputs] lacks a field of the table's schema.  It never raises. *)
Definition apply_rule (table : RuleTable) (inputs : list (string * pyval)) : pyval :=
  if forallb (has_field inputs) (input_fields table) then
    match find (row_matches inputs) (rows table) with
    | Some row => PStr (row_output row)
    | None => PNone
    end
  else PNone.

End RuleProcessor.

Import RuleProcessor.

(** ** Pandas values *)

Module Pandas.

(** What [pd.to_datetime] returns: a [Timestamp], tz-aware or tz-naive,
    at an instant of the time line (numbered by [Z]); [NaT], the missing
    timestamp it gives for null-like input; or another object. *)
Inductive pd_datetime : Type :=
| Timestamp (tz_aware : bool) (instant : Z)
| NaT
| PdOther (v : pyval).

(** The comparisons the engine makes: [<], [>] and [<=]. *)
Inductive cmp_op : Type :=
| OpLt
| OpGt
| OpLe.

Definition compare_instants (op : cmp_op) (x y : Z) : bool :=
  match op with
  | OpLt => x <? y
  | OpGt => y <? x
  | OpLe => x <=? y
  end.

(** [a op b] on the values of [pd.to_datetime].  Two Timestamps compare
    by their instants when both are tz-aware or both tz-naive, and raise
    [TypeError] otherwise; an ordering comparison with [NaT] is false;
    on other objects the comparison is [other]. *)
Definition pd_compare
    (other : cmp_op -> pd_datetime -> pd_datetime -> sum exn bool)
    (op : cmp_op) (a b : pd_datetime) : sum exn bool :=
  match a, b with
  | Timestamp ta x, Timestamp tb y =>
      if Bool.eqb ta tb then ret (compare_instants op x y)
      else raise TypeError
  | NaT, NaT => ret false
  | NaT, Timestamp _ _ => ret false
  | Timestamp _ _, NaT => ret false
  | _, _ => other op a b
  end.

End Pandas.

Import Pandas.

(** ** Sample data

    Concrete stores, tables and a concrete timestamp parser, on which the
    engine is run in the examples at the end. *)

Module Samples.

(** A parser for the inputs of the examples: an integer is the tz-naive
    Timestamp that many nanoseconds after the epoch, two ISO strings with
    a UTC offset are tz-aware Timestamps, the empty string and [None] are
    [NaT], and it raises on anything else. *)
Definition epoch_parse (v : pyval) : sum exn pd_datetime :=
  match v with
  | PInt z => inr (Timestamp false z)
  | PStr s =>
      if (s =? "")%string then inr NaT
      else if (s =? "2024-01-01T00:00:00+00:00")%string
      then inr (Timestamp true 1704067200000000000)
      else if (s =? "2024-01-02T00:00:00+00:00")%string
      then inr (Timestamp true 1704153600000000000)
      else inl ValueError
  | PNone => inr NaT
  | _ => inl ValueError
  end.

(** Comparisons with other objects are not supported. *)
Definition no_comparison (op : cmp_op) (a b : pd_datetime) : sum exn bool :=
  inl TypeError.

(** A well-formed abstracted record. *)
Definition record (value : string) (start_time end_time : Z) : pyval :=
  PDict [("value", PStr value);
         ("start_time", PInt start_time);
         ("end_time", PInt end_time)].

(** A record that carries no ['value'] entry. *)
Definition record_without_value (start_time end_time : Z) : pyval :=
  PDict [("start_time", PInt start_time); ("end_time", PInt end_time)].

(** The reply of the data access object: one row with one column. *)
Definition one_row (column : pyval) : pyval := PList [PTuple [column]].

Definition no_rows : pyval := PList [].

(** A store given by its reply per concept. *)
Definition store_of (reply : string -> pyval)
    : string -> pyval * string -> pyval :=
  fun _ params => reply (snd params).

Definition query : string := "SELECT".

Definition patient : pyval := PStr "p1".

(** Both hematological concepts recorded, with windows that overlap. *)
Definition store_complete : string -> pyval * string -> pyval :=
  store_of (fun concept =>
    if (concept =? "Hemoglobin_Level")%string then one_row (record "Low" 0 10)
    else if (concept =? "WBC_Level")%string then one_row (record "Low-Low" 5 20)
    else if (concept =? "Fever_Level")%string then one_row (record "High" 0 10)
    else if (concept =? "Chills")%string then one_row (record "Rigor" 1 10)
    else if (concept =? "Skin-Look")%string then one_row (record "Erythema" 2 10)
    else if (concept =? "Allergic-State")%string then one_row (record "Edema" 3 10)
    else no_rows).

(** No hemoglobin record and no fever record. *)
Definition store_missing : string -> pyval * string -> pyval :=
  store_of (fun concept =>
    if (concept =? "WBC_Level")%string then one_row (record "Low-Low" 5 20)
    else if (concept =? "Chills")%string then one_row (record "Rigor" 1 10)
    else if (concept =? "Skin-Look")%string then one_row (record "Erythema" 2 10)
    else no_rows).

(** Every record lacks its ['value'] entry. *)
Definition store_odd : string -> pyval * string -> pyval :=
  store_of (fun _ => one_row (record_without_value 0 10)).

Definition hematological_rules : RuleTable :=
  {| input_fields := ["hemoglobin_state"; "wbc_level"];
     rows :=
       [ {| row_inputs := [("hemoglobin_state", "Low"); ("wbc_level", "Low-Low")];
            row_output := "Pancytopenia" |};
         {| row_inputs := [("hemoglobin_state", "Normal"); ("wbc_level", "Normal")];
            row_output := "Normal" |} ] |}.

Definition systemic_toxicity_rules : RuleTable :=
  {| input_fields := ["fever_level"; "chills"; "skin_look"; "allergic_state"];
     rows :=
       [ {| row_inputs := [("fever_level", "High"); ("chills", "Rigor");
                           ("skin_look", "Erythema"); ("allergic_state", "Edema")];
            row_output := "GRADE II" |} ] |}.

Definition treatment_rules : RuleTable :=
  {| input_fields := ["gender"; "hemoglobin_state"; "hematological_state";
                      "systemic_toxicity_grade"];
     rows :=
       [ {| row_inputs := [("gender", "Female"); ("hemoglobin_state", "Low");
                           ("hematological_state", "Pancytopenia");
                           ("systemic_toxicity_grade", "GRADE II")];
            row_output := "Measure BP every week" |} ] |}.

(** A table with a row keyed on the empty string. *)
Definition empty_key_rules : RuleTable :=
  {| input_fields := ["hemoglobin_state"; "wbc_level"];
     rows :=
       [ {| row_inputs := [("hemoglobin_state", ""); ("wbc_level", "Low-Low")];
            row_output := "Unknown" |} ] |}.

(** The results of the analyses on [store_complete]. *)
Definition hematological_ok : pyval :=
  PDict [("patient_id", patient);
         ("individual_states",
            PDict [("hemoglobin_state", PStr "Low");
                   ("wbc_level", PStr "Low-Low")]);
         ("hematological_state", PStr "Pancytopenia");
         ("temporal_overlap", PBool true)].

Definition toxicity_ok : pyval :=
  PDict [("patient_id", patient);
         ("individual_states",
            PDict [("fever_level", PStr "High"); ("chills", PStr "Rigor");
                   ("skin_look", PStr "Erythema");
                   ("allergic_state", PStr "Edema")]);
         ("systemic_toxicity_grade", PStr "GRADE II");
         ("temporal_overlap", PBool true)].

Definition treatment_ok : pyval :=
  PDict [("patient_id", patient);
         ("clinical_inputs",
            PDict [("gender", PStr "Female");
                   ("hemoglobin_state", PStr "Low");
                   ("hematological_state", PStr "Pancytopenia");
                   ("systemic_toxicity_grade", PStr "GRADE II")]);
         ("treatment_recommendations", PStr "Measure BP every week")].

(** The results of the analyses on [store_missing]. *)
Definition hematological_missing_message : string :=
  "Missing required abstracted data for hematological analysis".

Definition hematological_missing : pyval :=
  PDict [("patient_id", patient);
         ("individual_states",
            PDict [("hemoglobin_state", PNone);
                   ("wbc_level", PStr "Low-Low")]);
         ("hematological_state", PNone);
         ("error", PStr hematological_missing_message)].

Definition toxicity_missing : pyval :=
  PDict [("patient_id", patient);
         ("individual_states",
            PDict [("fever_level", PNone); ("chills", PStr "Rigor");
                   ("skin_look", PStr "Erythema");
                   ("allergic_state", PNone)]);
         ("systemic_toxicity_grade", PNone);
         ("error",
            PStr "Missing required abstracted data for: Fever_Level, Allergic-State")].

Definition treatment_failed : pyval :=
  PDict [("patient_id", patient);
         ("treatment_recommendations", PNone);
         ("error",
            PStr ("Hematological analysis failed: "
                  ++ hematological_missing_message))].

(** Three records, the first of which contains the other two. *)
Definition nested_records : list pyval :=
  [record "A" 0 10; record "B" 1 2; record "C" 3 4].

(** A record whose start time is not a timestamp. *)
Definition record_with_bad_start : pyval :=
  PDict [("value", PStr "Low");
         ("start_time", PStr "not a date");
         ("end_time", PInt 3)].

(** A record whose start time is the empty string. *)
Definition record_with_null_start : pyval :=
  PDict [("value", PStr "Low-Low");
         ("start_time", PStr "");
         ("end_time", PInt 30)].

(** A record with tz-aware timestamps. *)
Definition aware_record (value : string) : pyval :=
  PDict [("value", PStr value);
         ("start_time", PStr "2024-01-01T00:00:00+00:00");
         ("end_time", PStr "2024-01-02T00:00:00+00:00")].

(** A hemoglobin record whose value is the empty string. *)
Definition store_empty_value : string -> pyval * string -> pyval :=
  store_of (fun concept =>
    if (concept =? "Hemoglobin_Level")%string then one_row (record "" 0 10)
    else if (concept =? "WBC_Level")%string then one_row (record "Low-Low" 5 20)
    else no_rows).

(** The latest value as a plain string, as the docstring of
    [get_latest_abstracted_value] describes its result. *)
Definition store_plain : string -> pyval * string -> pyval :=
  store_of (fun _ => one_row (PStr "Low")).

(** Records that are all present, with a start time that does not parse
    among the hematological ones and two windows that do not meet among
    the toxicity ones. *)
Definition store_disjoint : string -> pyval * string -> pyval :=
  store_of (fun concept =>
    if (concept =? "Hemoglobin_Level")%string then one_row record_with_bad_start
    else if (concept =? "WBC_Level")%string then one_row (record "Low-Low" 5 20)
    else if (concept =? "Fever_Level")%string then one_row (record "High" 0 10)
    else if (concept =? "Chills")%string then one_row (record "Rigor" 11 20)
    else if (concept =? "Skin-Look")%string then one_row (record "Erythema" 0 30)
    else if (concept =? "Allergic-State")%string then one_row (record "Edema" 0 30)
    else no_rows).

(** Hematological values for which [hematological_rules] has no row. *)
Definition store_no_match : string -> pyval * string -> pyval :=
  store_of (fun concept =>
    if (concept =? "Hemoglobin_Level")%string then one_row (record "Low" 0 10)
    else if (concept =? "WBC_Level")%string then one_row (record "Normal" 5 20)
    else no_rows).

(** A rendering of objects that are not strings. *)
Definition repr (v : pyval) : string :=
  match v with
  | PNone => "None"
  | PBool true => "True"
  | PBool false => "False"
  | _ => "<object>"
  end.

End Samples.

(** ** The engine *)

(** An entry of [datetime_records]: [{'start': start_dt, 'end': end_dt}]. *)
Record datetime_record : Type := mkDt {
  dt_start : pd_datetime;
  dt_end : pd_datetime
}.

(** A validity window on the time line, from [w_start] to [w_end]. *)
Record window : Type := mkWindow {
  w_start : Z;
  w_end : Z
}.

(** The entry of [datetime_records] whose two Timestamps, of the given
    tz-awareness, are the bounds of a window. *)
Definition stamps (aware : bool) (w : window) : datetime_record :=
  {| dt_start := Timestamp aware (w_start w);
     dt_end := Timestamp aware (w_end w) |}.

(** How the [for] loop of [check_temporal_overlap] ends: by one of its
    [return] statements, or by running to completion with the list it
    built. *)
Inductive loop_outcome : Type :=
| Returned (b : bool)
| Completed (datetime_records : list datetime_record).

Section SimpleRuleEngine.

(** [pd.to_datetime]: it raises on what it cannot parse, and otherwise
    gives a Timestamp, [NaT] or another object. *)
Variable to_datetime : pyval -> sum exn pd_datetime.

(** The truth value of a comparison in which an operand is neither a
    Timestamp nor [NaT], or the exception it raises. *)
Variable compare_other : cmp_op -> pd_datetime -> pd_datetime -> sum exn bool.

(** The body of the [try] block, for one record. *)
Definition to_datetime_record (record : pyval) : sum exn datetime_record :=
  s <- getitem_str record "start_time" ;;
  start_dt <- to_datetime s ;;
  e <- getitem_str record "end_time" ;;
  end_dt <- to_datetime e ;;
  ret {| dt_start := start_dt; dt_end := end_dt |}.

(** The [for record in records] loop; the bare [except] turns every
    exception of the [try] block into [return False]. *)
Fixpoint scan_records (records : list pyval)
    (datetime_records : list datetime_record) : loop_outcome :=
  match records with
  | [] => Completed datetime_records
  | record :: rest =>
      if is_none record then Returned false
      else
        match catch (d <- to_datetime_record record ;; ret (Some d))
                    (fun _ => ret None) with
        | inr (Some d) => scan_records rest (datetime_records ++ [d])
        | _ => Returned false
        end
  end.

Definition check_temporal_overlap (records : list pyval) : sum exn bool :=
  if negb (truthy (PList records)) || (Z.of_nat (length records) <? 2) then
    ret true
  else
    match scan_records records [] with
    | Returned b => ret b
    | Completed datetime_records =>
        latest_start <-
          py_max (pd_compare compare_other OpGt)
                 (map dt_start datetime_records) ;;
        earliest_end <-
          py_min (pd_compare compare_other OpLt)
                 (map dt_end datetime_records) ;;
        pd_compare compare_other OpLe latest_start earliest_end
    end.

(** The collaborators of the engine that are not among the sources: the
    data access object with the query it is given, the lookup of the
    rule processor (a function that gives [None] where it finds no row,
    and does not raise), the rule tables of [backend_config], and the
    text Python prints for an object that is not a string. *)
Variable GET_LATEST_ABSTRACTED_VALUE_QUERY : string.
Variable fetch_records : string -> pyval * string -> pyval.
Variable apply_rule : RuleTable -> list (string * pyval) -> pyval.
Variable HEMATOLOGICAL_RULES : RuleTable.
Variable SYSTEMIC_TOXICITY_RULES : RuleTable.
Variable TREATMENT_RULES : RuleTable.
Variable py_repr : pyval -> string.

(** [f'{v}']: a string is inserted as it is. *)
Definition py_format (v : pyval) : string :=
  match v with
  | PStr s => s
  | _ => py_repr v
  end.

Definition get_hematological_state (hemoglobin_state wbc_level : pyval) : pyval :=
  if negb (truthy hemoglobin_state) || negb (truthy wbc_level) then PNone
  else
    let input_values :=
      [("hemoglobin_state", hemoglobin_state); ("wbc_level", wbc_level)] in
    apply_rule HEMATOLOGICAL_RULES input_values.

Definition get_systemic_toxicity_grade
    (fever_level chills skin_look allergic_state : pyval) : pyval :=
  if negb (py_all [fever_level; chills; skin_look; allergic_state]) then PNone
  else
    let input_values :=
      [("fever_level", fever_level); ("chills", chills);
       ("skin_look", skin_look); ("allergic_state", allergic_state)] in
    apply_rule SYSTEMIC_TOXICITY_RULES input_values.

Definition get_latest_abstracted_value (patient_id : pyval)
    (concept_name : string) : sum exn pyval :=
  let result :=
    fetch_records GET_LATEST_ABSTRACTED_VALUE_QUERY (patient_id, concept_name) in
  if negb (truthy result) then ret PNone
  else
    row <- getitem_int result 0 ;;
    getitem_int row 0.

(** [record['value'] if record else None]. *)
Definition value_or_none (record : pyval) : sum exn pyval :=
  if truthy record then getitem_str record "value" else ret PNone.

Definition analyze_patient_hematological_state (patient_id : pyval)
    : sum exn pyval :=
  hemoglobin_record <- get_latest_abstracted_value patient_id "Hemoglobin_Level" ;;
  wbc_record <- get_latest_abstracted_value patient_id "WBC_Level" ;;
  if negb (truthy hemoglobin_record) || negb (truthy wbc_record) then
    h <- value_or_none hemoglobin_record ;;
    w <- value_or_none wbc_record ;;
    ret (PDict
      [("patient_id", patient_id);
       ("individual_states",
          PDict [("hemoglobin_state", h); ("wbc_level", w)]);
       ("hematological_state", PNone);
       ("error",
          PStr "Missing required abstracted data for hematological analysis")])
  else
    overlap <- check_temporal_overlap [hemoglobin_record; wbc_record] ;;
    if negb overlap then
      h <- getitem_str hemoglobin_record "value" ;;
      w <- getitem_str wbc_record "value" ;;
      ret (PDict
        [("patient_id", patient_id);
         ("individual_states",
            PDict [("hemoglobin_state", h); ("wbc_level", w)]);
         ("hematological_state", PNone);
         ("error",
            PStr "No temporal overlap between hemoglobin and WBC measurements")])
    else
      hemoglobin_state <- getitem_str hemoglobin_record "value" ;;
      wbc_level <- getitem_str wbc_record "value" ;;
      let hematological_state :=
        get_hematological_state hemoglobin_state wbc_level in
      ret (PDict
        [("patient_id", patient_id);
         ("individual_states",
            PDict [("hemoglobin_state", hemoglobin_state);
                   ("wbc_level", wbc_level)]);
         ("hematological_state", hematological_state);
         ("temporal_overlap", PBool true)]).

Definition concept_names : list string :=
  ["Fever_Level"; "Chills"; "Skin-Look"; "Allergic-State"].

(** The loop that fills [missing_concepts]: the names, in the declared
    order, of the records that are falsy. *)
Definition missing_concepts_of (all_records : list pyval) : list string :=
  map snd (filter (fun p => negb (truthy (fst p)))
                  (combine all_records concept_names)).

Definition analyze_patient_systemic_toxicity (patient_id : pyval)
    : sum exn pyval :=
  fever_record <- get_latest_abstracted_value patient_id "Fever_Level" ;;
  chills_record <- get_latest_abstracted_value patient_id "Chills" ;;
  skin_record <- get_latest_abstracted_value patient_id "Skin-Look" ;;
  allergic_record <- get_latest_abstracted_value patient_id "Allergic-State" ;;
  let all_records :=
    [fever_record; chills_record; skin_record; allergic_record] in
  let missing_concepts := missing_concepts_of all_records in
  if truthy (PList (map PStr missing_concepts)) then
    f <- value_or_none fever_record ;;
    c <- value_or_none chills_record ;;
    s <- value_or_none skin_record ;;
    a <- value_or_none allergic_record ;;
    ret (PDict
      [("patient_id", patient_id);
       ("individual_states",
          PDict [("fever_level", f); ("chills", c);
                 ("skin_look", s); ("allergic_state", a)]);
       ("systemic_toxicity_grade", PNone);
       ("error",
          PStr ("Missing required abstracted data for: "
                ++ join ", " missing_concepts))])
  else
    overlap <- check_temporal_overlap all_records ;;
    if negb overlap then
      f <- getitem_str fever_record "value" ;;
      c <- getitem_str chills_record "value" ;;
      s <- getitem_str skin_record "value" ;;
      a <- getitem_str allergic_record "value" ;;
      ret (PDict
        [("patient_id", patient_id);
         ("individual_states",
            PDict [("fever_level", f); ("chills", c);
                   ("skin_look", s); ("allergic_state", a)]);
         ("systemic_toxicity_grade", PNone);
         ("error",
            PStr "No temporal overlap between all required measurements")])
    else
      fever_level <- getitem_str fever_record "value" ;;
      chills <- getitem_str chills_record "value" ;;
      skin_look <- getitem_str skin_record "value" ;;
      allergic_state <- getitem_str allergic_record "value" ;;
      let systemic_toxicity_grade :=
        get_systemic_toxicity_grade fever_level chills skin_look allergic_state in
      ret (PDict
        [("patient_id", patient_id);
         ("individual_states",
            PDict [("fever_level", fever_level); ("chills", chills);
                   ("skin_look", skin_look);
                   ("allergic_state", allergic_state)]);
         ("systemic_toxicity_grade", systemic_toxicity_grade);
         ("temporal_overlap", PBool true)]).

(** The names appended to [missing] by the four [if not ...] lines. *)
Definition missing_parameters
    (gender hemoglobin_state hematological_state systemic_toxicity_grade : pyval)
    : list string :=
  (if negb (truthy gender) then ["gender"] else [])
  ++ (if negb (truthy hemoglobin_state) then ["hemoglobin_state"] else [])
  ++ (if negb (truthy hematological_state) then ["hematological_state"] else [])
  ++ (if negb (truthy systemic_toxicity_grade)
      then ["systemic_toxicity_grade"] else []).

Definition analyze_treatment
    (patient_id gender hematological_analysis systemic_toxicity_analysis : pyval)
    : sum exn pyval :=
  hematological_failed <- py_in "error" hematological_analysis ;;
  if (hematological_failed : bool) then
    e <- getitem_str hematological_analysis "error" ;;
    ret (PDict
      [("patient_id", patient_id);
       ("treatment_recommendations", PNone);
       ("error", PStr ("Hematological analysis failed: " ++ py_format e))])
  else
    toxicity_failed <- py_in "error" systemic_toxicity_analysis ;;
    if (toxicity_failed : bool) then
      e <- getitem_str systemic_toxicity_analysis "error" ;;
      ret (PDict
        [("patient_id", patient_id);
         ("treatment_recommendations", PNone);
         ("error",
            PStr ("Systemic toxicity analysis failed: " ++ py_format e))])
    else
      individual_states <- getitem_str hematological_analysis "individual_states" ;;
      hemoglobin_state <- getitem_str individual_states "hemoglobin_state" ;;
      hematological_state <-
        getitem_str hematological_analysis "hematological_state" ;;
      systemic_toxicity_grade <-
        getitem_str systemic_toxicity_analysis "systemic_toxicity_grade" ;;
      if negb (py_all [gender; hemoglobin_state; hematological_state;
                       systemic_toxicity_grade]) then
        let missing :=
          missing_parameters gender hemoglobin_state hematological_state
                             systemic_toxicity_grade in
        ret (PDict
          [("patient_id", patient_id);
           ("treatment_recommendations", PNone);
           ("error",
              PStr ("Missing required parameters for treatment analysis: "
                    ++ join ", " missing))])
      else
        let input_values :=
          [("gender", gender);
           ("hemoglobin_state", hemoglobin_state);
           ("hematological_state", hematological_state);
           ("systemic_toxicity_grade", systemic_toxicity_grade)] in
        let treatment_recommendations :=
          apply_rule TREATMENT_RULES input_values in
        ret (PDict
          [("patient_id", patient_id);
           ("clinical_inputs", PDict input_values);
           ("treatment_recommendations", treatment_recommendations)]).

(** *** Vocabulary of the statements *)

(** [record] is not [None] and its two timestamps parse to Timestamps
    of tz-awareness [aware], the bounds of the window [w]. *)
Definition parsed_as (aware : bool) (record : pyval) (w : window) : Prop :=
  record <> PNone /\ to_datetime_record record = inr (stamps aware w).

(** [record] is not [None] and the [try] block raises on it: an entry is
    missing from the record, the record is no dictionary, or
    [to_datetime] raises on a timestamp. *)
Definition unparseable (record : pyval) : Prop :=
  record <> PNone /\ exists e, to_datetime_record record = inl e.

(** Whenever the [try] block succeeds on [record], both its timestamps
    are Timestamps of tz-awareness [aware]. *)
Definition timestamped (aware : bool) (record : pyval) : Prop :=
  forall d, to_datetime_record record = inr d -> exists w, d = stamps aware w.

(** [NaT], or a Timestamp of tz-awareness [aware]. *)
Definition orderly (aware : bool) (v : pd_datetime) : Prop :=
  v = NaT \/ exists z, v = Timestamp aware z.

(** Whenever the [try] block succeeds on [record], each of its
    timestamps is [NaT] or a Timestamp of tz-awareness [aware]. *)
Definition orderly_record (aware : bool) (record : pyval) : Prop :=
  forall d, to_datetime_record record = inr d ->
  orderly aware (dt_start d) /\ orderly aware (dt_end d).

Definition is_max (m : Z) (xs : list Z) : Prop :=
  In m xs /\ forall x, In x xs -> x <= m.

Definition is_min (m : Z) (xs : list Z) : Prop :=
  In m xs /\ forall x, In x xs -> m <= x.

Definition valid_interval (d : window) : Prop :=
  w_start d <= w_end d.

(** Some instant lies in every interval. *)
Definition common_instant (ds : list window) : Prop :=
  exists t, forall d, In d ds -> w_start d <= t <= w_end d.

(** The interval [outer] contains the interval [inner]. *)
Definition contains_interval (outer inner : window) : Prop :=
  w_start outer <= w_start inner /\ w_end inner <= w_end outer.

(** [d1] ends before [d2] starts. *)
Definition ends_before (d1 d2 : window) : Prop :=
  w_end d1 < w_start d2.

(** Two ways records fail the overlap check: the [try] block raises on
    one of them, or they all parse to Timestamps of one tz-awareness and
    one window ends before another starts. *)
Definition windows_never_meet (aware : bool) (records : list pyval) : Prop :=
  (exists r, In r records /\ unparseable r) \/
  (exists ds d1 d2,
     Forall2 (parsed_as aware) records ds /\
     In d1 ds /\ In d2 ds /\ ends_before d1 d2).

(** A fetched record the analyses can read: it is falsy (no record), or
    a dictionary with a ['value'] entry. *)
Definition wellformed_record (record : pyval) : Prop :=
  truthy record = false \/
  exists entries v, record = PDict entries /\ assoc "value" entries = Some v.

(** The fetch of [concept_name] returns, and returns such a record. *)
Definition wellformed_fetch (patient_id : pyval) (concept_name : string) : Prop :=
  exists record,
    get_latest_abstracted_value patient_id concept_name = inr record /\
    wellformed_record record.

(** The timestamps of the record fetched for [concept_name] are [NaT]
    or Timestamps of tz-awareness [aware], where they parse. *)
Definition orderly_fetch (aware : bool) (patient_id : pyval)
    (concept_name : string) : Prop :=
  forall record,
    get_latest_abstracted_value patient_id concept_name = inr record ->
    orderly_record aware record.

(** [states] holds under [key] the raw input of [concept_name]: the
    ['value'] of the fetched record, [None] when there is no record. *)
Definition raw_input (patient_id : pyval) (concept_name key : string)
    (states : pyval) : Prop :=
  exists record v,
    get_latest_abstracted_value patient_id concept_name = inr record /\
    value_or_none record = inr v /\
    field states key = Some v.

(** A result of the two fetching analyses: an error string with a null
    derived value and no marker, or the derived value with the marker
    [temporal_overlap = True] and no error. *)
Definition error_xor_marker (result : pyval) (derived : string) : Prop :=
  ((exists e, field result "error" = Some (PStr e)) /\
   field result derived = Some PNone /\
   field result "temporal_overlap" = None)
  \/
  (field result "error" = None /\
   (exists v, field result derived = Some v) /\
   field result "temporal_overlap" = Some (PBool true)).

(** A result of the treatment analysis: an error string with null
    recommendations, or the recommendations with the [clinical_inputs]
    they were looked up from and no error. *)
Definition error_xor_inputs (result : pyval) : Prop :=
  ((exists e, field result "error" = Some (PStr e)) /\
   field result "treatment_recommendations" = Some PNone)
  \/
  (field result "error" = None /\
   (exists v, field result "treatment_recommendations" = Some v) /\
   (exists inputs, field result "clinical_inputs" = Some (PDict inputs))).

(** The result dictionaries of the two fetching analyses, as the
    [return] statements build them. *)
Definition hematological_success
    (patient_id hemoglobin_state wbc_level hematological_state : pyval) : pyval :=
  PDict [("patient_id", patient_id);
         ("individual_states",
            PDict [("hemoglobin_state", hemoglobin_state);
                   ("wbc_level", wbc_level)]);
         ("hematological_state", hematological_state);
         ("temporal_overlap", PBool true)].

Definition hematological_failure
    (patient_id hemoglobin_state wbc_level : pyval) (message : string) : pyval :=
  PDict [("patient_id", patient_id);
         ("individual_states",
            PDict [("hemoglobin_state", hemoglobin_state);
                   ("wbc_level", wbc_level)]);
         ("hematological_state", PNone);
         ("error", PStr message)].

Definition toxicity_success
    (patient_id fever_level chills skin_look allergic_state grade : pyval)
    : pyval :=
  PDict [("patient_id", patient_id);
         ("individual_states",
            PDict [("fever_level", fever_level); ("chills", chills);
                   ("skin_look", skin_look);
                   ("allergic_state", allergic_state)]);
         ("systemic_toxicity_grade", grade);
         ("temporal_overlap", PBool true)].

Definition toxicity_failure
    (patient_id fever_level chills skin_look allergic_state : pyval)
    (message : string) : pyval :=
  PDict [("patient_id", patient_id);
         ("individual_states",
            PDict [("fever_level", fever_level); ("chills", chills);
                   ("skin_look", skin_look);
                   ("allergic_state", allergic_state)]);
         ("systemic_toxicity_grade", PNone);
         ("error", PStr message)].

(** The shapes of the results of [analyze_treatment]. *)
Definition treatment_error_result (patient_id : pyval) (message : string) : pyval :=
  PDict [("patient_id", patient_id);
         ("treatment_recommendations", PNone);
         ("error", PStr message)].

Definition treatment_inputs
    (gender hemoglobin_state hematological_state systemic_toxicity_grade : pyval)
    : list (string * pyval) :=
  [("gender", gender);
   ("hemoglobin_state", hemoglobin_state);
   ("hematological_state", hematological_state);
   ("systemic_toxicity_grade", systemic_toxicity_grade)].

(** Case analysis on the computation in [H : ... = inr _]: each [match]
    and [if] on the way is resolved, and the branches that raise are
    discarded. *)
Ltac run_in H :=
  cbn [bind ret Monad_either] in H;
  repeat (match type of H with
          | context [match ?x with _ => _ end] =>
              destruct x eqn:?; try discriminate H
          end;
          cbn [bind ret Monad_either] in H).

(** ** Properties of the built-in operations *)

Lemma fold_max_is_max (rest : list Z) (x : Z) :
  is_max (fold_left Z.max rest x) (x :: rest).
Proof.
  revert x. induction rest as [|a rest IH]; intros x; simpl.
  - split; [now left | intros y [<-|[]]; lia].
  - destruct (IH (Z.max x a)) as [Hin Hub]. split.
    + destruct Hin as [Heq|Hin].
      * rewrite <- Heq. destruct (Z.max_spec x a) as [[_ ->]|[_ ->]]; simpl; auto.
      * simpl; auto.
    + intros y [<-|[<-|Hy]].
      * specialize (Hub (Z.max x a) (or_introl eq_refl)). lia.
      * specialize (Hub (Z.max x a) (or_introl eq_refl)). lia.
      * apply Hub. now right.
Qed.

Lemma fold_min_is_min (rest : list Z) (x : Z) :
  is_min (fold_left Z.min rest x) (x :: rest).
Proof.
  revert x. induction rest as [|a rest IH]; intros x; simpl.
  - split; [now left | intros y [<-|[]]; lia].
  - destruct (IH (Z.min x a)) as [Hin Hlb]. split.
    + destruct Hin as [Heq|Hin].
      * rewrite <- Heq. destruct (Z.min_spec x a) as [[_ ->]|[_ ->]]; simpl; auto.
      * simpl; auto.
    + intros y [<-|[<-|Hy]].
      * specialize (Hlb (Z.min x a) (or_introl eq_refl)). lia.
      * specialize (Hlb (Z.min x a) (or_introl eq_refl)). lia.
      * apply Hlb. now right.
Qed.

Lemma is_max_unique (m m' : Z) (xs : list Z) :
  is_max m xs -> is_max m' xs -> m = m'.
Proof.
  intros [Hin Hub] [Hin' Hub']. specialize (Hub _ Hin'). specialize (Hub' _ Hin). lia.
Qed.

Lemma is_min_unique (m m' : Z) (xs : list Z) :
  is_min m xs -> is_min m' xs -> m = m'.
Proof.
  intros [Hin Hlb] [Hin' Hlb']. specialize (Hlb _ Hin'). specialize (Hlb' _ Hin). lia.
Qed.

Lemma prefix_app (sub rest : string) : String.prefix sub (sub ++ rest) = true.
Proof.
  induction sub as [|c sub IH]; simpl.
  - now destruct rest.
  - destruct (ascii_dec c c) as [_|Hne]; [exact IH | now elim Hne].
Qed.

Lemma contains_prefix (sub s : string) :
  String.prefix sub s = true -> contains sub s = true.
Proof. destruct s; simpl; intros ->; reflexivity. Qed.

Lemma contains_app (sub before rest : string) :
  contains sub (before ++ sub ++ rest) = true.
Proof.
  induction before as [|c before IH]; simpl.
  - apply contains_prefix, prefix_app.
  - rewrite IH. apply orb_true_r.
Qed.

Lemma prefix_refl (sub : string) : String.prefix sub sub = true.
Proof.
  induction sub as [|c sub IH]; simpl; [reflexivity|].
  destruct (ascii_dec c c) as [_|Hne]; [exact IH | now elim Hne].
Qed.

Lemma contains_at_start (sub rest : string) : contains sub (sub ++ rest) = true.
Proof. apply contains_prefix, prefix_app. Qed.

Lemma contains_at_end (before sub : string) : contains sub (before ++ sub) = true.
Proof.
  induction before as [|c before IH]; simpl.
  - apply contains_prefix, prefix_refl.
  - rewrite IH. apply orb_true_r.
Qed.

(** ** Comparisons of Timestamps, [max] and [min] *)

Lemma pd_compare_stamps (op : cmp_op) (aware : bool) (x y : Z) :
  pd_compare compare_other op (Timestamp aware x) (Timestamp aware y)
  = inr (compare_instants op x y).
Proof. simpl. now rewrite Bool.eqb_reflx. Qed.

(** On Timestamps of one tz-awareness, [max] gives the Timestamp of the
    greatest instant and [min] that of the least. *)
Lemma max_of_stamps (aware : bool) (zs : list Z) (z : Z) :
  extremum_from (pd_compare compare_other OpGt) (Timestamp aware z)
                (map (Timestamp aware) zs)
  = inr (Timestamp aware (fold_left Z.max zs z)).
Proof.
  revert z. induction zs as [|i zs IH]; intros z; [reflexivity|].
  cbn [map extremum_from fold_left]. rewrite pd_compare_stamps.
  cbn [bind Monad_either compare_instants].
  destruct (Z.ltb_spec z i); rewrite IH.
  - now rewrite Z.max_r by lia.
  - now rewrite Z.max_l by lia.
Qed.

Lemma min_of_stamps (aware : bool) (zs : list Z) (z : Z) :
  extremum_from (pd_compare compare_other OpLt) (Timestamp aware z)
                (map (Timestamp aware) zs)
  = inr (Timestamp aware (fold_left Z.min zs z)).
Proof.
  revert z. induction zs as [|i zs IH]; intros z; [reflexivity|].
  cbn [map extremum_from fold_left]. rewrite pd_compare_stamps.
  cbn [bind Monad_either compare_instants].
  destruct (Z.ltb_spec i z); rewrite IH.
  - now rewrite Z.min_r by lia.
  - now rewrite Z.min_l by lia.
Qed.

(** Comparisons among [NaT] and Timestamps of one tz-awareness do not
    raise, and [max] and [min] of such values is such a value. *)
Lemma pd_compare_orderly (op : cmp_op) (aware : bool) (a b : pd_datetime) :
  orderly aware a -> orderly aware b ->
  exists c, pd_compare compare_other op a b = inr c.
Proof.
  intros [->|[x ->]] [->|[y ->]]; try (eexists; reflexivity).
  rewrite pd_compare_stamps. eauto.
Qed.

Lemma extremum_orderly (op : cmp_op) (aware : bool) (xs : list pd_datetime) :
  forall x, orderly aware x -> Forall (orderly aware) xs ->
  exists m, extremum_from (pd_compare compare_other op) x xs = inr m /\
            orderly aware m.
Proof.
  induction xs as [|item xs IH]; intros x Hx Hxs.
  - exists x. split; [reflexivity | exact Hx].
  - inversion Hxs as [|? ? Hitem Hrest]; subst.
    destruct (pd_compare_orderly op aware item x Hitem Hx) as [c Hc].
    cbn [extremum_from]. rewrite Hc. cbn [bind Monad_either].
    destruct c; apply IH; assumption.
Qed.

(** ** The loop of [check_temporal_overlap] *)

(** One turn of the loop, with the bare [except] resolved. *)
Lemma scan_records_cons (record : pyval) (rest : list pyval)
    (acc : list datetime_record) :
  scan_records (record :: rest) acc =
  if is_none record then Returned false
  else match to_datetime_record record with
       | inr d => scan_records rest (acc ++ [d])
       | inl _ => Returned false
       end.
Proof.
  simpl. destruct (is_none record); [reflexivity|].
  destruct (to_datetime_record record); reflexivity.
Qed.

(** The loop returns [False] as soon as the list holds a record that is
    [None] or on which the [try] block raises. *)
Lemma scan_records_returns_false (records : list pyval) :
  (exists r, In r records /\ (r = PNone \/ exists e, to_datetime_record r = inl e)) ->
  forall acc, scan_records records acc = Returned false.
Proof.
  induction records as [|record rest IH]; intros [r [Hin Hbad]] acc.
  - destruct Hin.
  - rewrite scan_records_cons.
    destruct (is_none record) eqn:Hnone; [reflexivity|].
    destruct (to_datetime_record record) as [e|d] eqn:Hrec; [reflexivity|].
    apply IH. exists r. split; [|exact Hbad].
    destruct Hin as [->|Hin]; [|exact Hin].
    destruct Hbad as [->|[e He]]; [discriminate | congruence].
Qed.

(** On records on which the [try] block succeeds, the loop runs to
    completion and has appended its results in order. *)
Lemma scan_records_completes (records : list pyval) (ds : list datetime_record) :
  Forall2 (fun r d => r <> PNone /\ to_datetime_record r = inr d) records ds ->
  forall acc, scan_records records acc = Completed (acc ++ ds).
Proof.
  induction 1 as [|record d records ds [Hnn Hrec] _ IH]; intros acc.
  - now rewrite app_nil_r.
  - rewrite scan_records_cons, Hrec, IH, <- app_assoc.
    destruct record; try reflexivity. now elim Hnn.
Qed.

Lemma parsed_as_completes (aware : bool) (records : list pyval)
    (ws : list window) :
  Forall2 (parsed_as aware) records ws ->
  scan_records records [] = Completed (map (stamps aware) ws).
Proof.
  intros Hall. apply (scan_records_completes records (map (stamps aware) ws)).
  induction Hall as [|record w records ws Hp _ IH]; constructor; assumption.
Qed.

(** What the completed loop has built comes from the records. *)
Lemma scan_records_origin (records : list pyval) :
  forall acc ds, scan_records records acc = Completed ds ->
  forall d, In d ds ->
  In d acc \/ exists r, In r records /\ to_datetime_record r = inr d.
Proof.
  induction records as [|record rest IH]; intros acc ds H d Hd.
  - simpl in H. inversion H; subst. now left.
  - rewrite scan_records_cons in H.
    destruct (is_none record); [discriminate|].
    destruct (to_datetime_record record) as [e|d0] eqn:Hrec; [discriminate|].
    destruct (IH _ _ H d Hd) as [Hacc|(r & Hr & Hparse)].
    + apply in_app_or in Hacc as [Hacc|[<-|[]]]; [now left|].
      right. exists record. split; [now left | exact Hrec].
    + right. exists r. split; [now right | exact Hparse].
Qed.

Lemma short_list_overlaps (records : list pyval) :
  (length records < 2)%nat -> check_temporal_overlap records = inr true.
Proof.
  intros Hlen. unfold check_temporal_overlap.
  destruct (Z.ltb_spec (Z.of_nat (length records)) 2) as [_|Hge]; [|lia].
  now rewrite orb_true_r.
Qed.

Lemma long_list_scans (records : list pyval) :
  (2 <= length records)%nat ->
  check_temporal_overlap records =
  match scan_records records [] with
  | Returned b => ret b
  | Completed datetime_records =>
      latest_start <-
        py_max (pd_compare compare_other OpGt)
               (map dt_start datetime_records) ;;
      earliest_end <-
        py_min (pd_compare compare_other OpLt)
               (map dt_end datetime_records) ;;
      pd_compare compare_other OpLe latest_start earliest_end
  end.
Proof.
  intros Hlen. unfold check_temporal_overlap.
  destruct (Z.ltb_spec (Z.of_nat (length records)) 2) as [Hlt|_]; [lia|].
  destruct records; [simpl in Hlen; lia | reflexivity].
Qed.

(** On two or more records that all parse to Timestamps of one
    tz-awareness, the result is the comparison of the latest start with
    the earliest end. *)
Lemma parsed_list_compares (aware : bool) (records : list pyval)
    (ds : list window) :
  (2 <= length records)%nat ->
  Forall2 (parsed_as aware) records ds ->
  exists latest_start earliest_end,
    is_max latest_start (map w_start ds) /\
    is_min earliest_end (map w_end ds) /\
    check_temporal_overlap records = inr (latest_start <=? earliest_end).
Proof.
  intros Hlen Hall. rewrite (long_list_scans _ Hlen).
  rewrite (parsed_as_completes _ _ _ Hall).
  destruct ds as [|d ds].
  - inversion Hall; subst. simpl in Hlen. lia.
  - exists (fold_left Z.max (map w_start ds) (w_start d)),
           (fold_left Z.min (map w_end ds) (w_end d)).
    split; [apply fold_max_is_max|]. split; [apply fold_min_is_min|].
    cbn [map py_max py_min stamps dt_start dt_end].
    rewrite !map_map. cbn [stamps dt_start dt_end].
    rewrite <- (map_map w_start (Timestamp aware)), max_of_stamps.
    cbn [bind Monad_either].
    rewrite <- (map_map w_end (Timestamp aware)), min_of_stamps.
    cbn [bind Monad_either]. apply pd_compare_stamps.
Qed.

Lemma common_instant_iff (ds : list window) (latest_start earliest_end : Z) :
  is_max latest_start (map w_start ds) ->
  is_min earliest_end (map w_end ds) ->
  (latest_start <= earliest_end <-> common_instant ds).
Proof.
  intros [Hin Hub] [Hin' Hlb]. split.
  - intros Hle. exists latest_start. intros d Hd. split.
    + apply Hub, in_map, Hd.
    + specialize (Hlb _ (in_map w_end _ _ Hd)). lia.
  - intros [t Ht].
    apply in_map_iff in Hin as [d1 [<- Hd1]].
    apply in_map_iff in Hin' as [d2 [<- Hd2]].
    pose proof (Ht _ Hd1). pose proof (Ht _ Hd2). lia.
Qed.

Lemma parsed_list_true_iff (aware : bool) (records : list pyval)
    (ds : list window) :
  (2 <= length records)%nat ->
  Forall2 (parsed_as aware) records ds ->
  (check_temporal_overlap records = inr true <-> common_instant ds).
Proof.
  intros Hlen Hall.
  destruct (parsed_list_compares _ _ _ Hlen Hall) as (ls & ee & Hmax & Hmin & ->).
  rewrite <- (common_instant_iff _ _ _ Hmax Hmin), <- Z.leb_le.
  split; [intros H; now inversion H | now intros ->].
Qed.

Lemma parsed_list_false_iff (aware : bool) (records : list pyval)
    (ds : list window) :
  (2 <= length records)%nat ->
  Forall2 (parsed_as aware) records ds ->
  (check_temporal_overlap records = inr false <-> ~ common_instant ds).
Proof.
  intros Hlen Hall.
  destruct (parsed_list_compares _ _ _ Hlen Hall) as (ls & ee & Hmax & Hmin & ->).
  rewrite <- (common_instant_iff _ _ _ Hmax Hmin), <- Z.leb_le.
  destruct (ls <=? ee); split; try congruence; intros H; now elim H.
Qed.

(** ** Claims on [check_temporal_overlap] *)

(** C1 (as amended).  A list that holds a [None] record makes
    [check_temporal_overlap] return [False] exactly when it has two or
    more records, whatever the other records are; with fewer than two
    records, so for the list whose only element is [None], the length
    test comes first and the function returns [True]. *)
Theorem null_record_result (records : list pyval) :
  In PNone records ->
  check_temporal_overlap records = inr (length records <? 2)%nat.
Proof.
  intros Hin. destruct (Nat.ltb_spec (length records) 2) as [Hlt|Hge].
  - now apply short_list_overlaps.
  - rewrite (long_list_scans _ Hge), scan_records_returns_false; [reflexivity|].
    exists PNone. auto.
Qed.

(** C4 (as amended).  A list of 0 or 1 records gives [True].  On two or
    more records that are not [None] and whose timestamps all parse to
    Timestamps of one tz-awareness (all tz-naive or all tz-aware), the
    result is the comparison [latest_start <= earliest_end] of the
    maximum of the starts with the minimum of the ends; it is [True]
    exactly when the intervals share an instant; it is [False] when some
    interval ends before another starts; it is [True] when a valid
    interval lies inside every interval of the list, and so for two
    valid records one of which contains the other. *)
Theorem overlap_is_latest_start_le_earliest_end :
  (forall records, (length records < 2)%nat ->
     check_temporal_overlap records = inr true) /\
  (forall aware records ds,
     (2 <= length records)%nat ->
     Forall2 (parsed_as aware) records ds ->
     (exists latest_start earliest_end,
        is_max latest_start (map w_start ds) /\
        is_min earliest_end (map w_end ds) /\
        check_temporal_overlap records = inr (latest_start <=? earliest_end) /\
        (check_temporal_overlap records = inr true
         <-> latest_start <= earliest_end)) /\
     (check_temporal_overlap records = inr true <-> common_instant ds) /\
     ((exists d1 d2, In d1 ds /\ In d2 ds /\ ends_before d1 d2) ->
      check_temporal_overlap records = inr false) /\
     ((exists inner, In inner ds /\ valid_interval inner /\
                     forall d, In d ds -> contains_interval d inner) ->
      check_temporal_overlap records = inr true) /\
     (forall d1 d2, ds = [d1; d2] -> valid_interval d1 -> valid_interval d2 ->
        contains_interval d1 d2 \/ contains_interval d2 d1 ->
        check_temporal_overlap records = inr true)).
Proof.
  split; [exact short_list_overlaps|].
  intros aware records ds Hlen Hall.
  pose proof (parsed_list_true_iff _ _ _ Hlen Hall) as Htrue.
  pose proof (parsed_list_false_iff _ _ _ Hlen Hall) as Hfalse.
  split; [|split; [|split; [|split]]].
  - destruct (parsed_list_compares _ _ _ Hlen Hall) as (ls & ee & Hmax & Hmin & Heq).
    exists ls, ee. rewrite Heq, <- Z.leb_le.
    split; [exact Hmax|]. split; [exact Hmin|]. split; [reflexivity|].
    split; [intros H; now inversion H | now intros ->].
  - exact Htrue.
  - intros (d1 & d2 & H1 & H2 & Hlt). apply Hfalse. intros [t Ht].
    pose proof (Ht _ H1). pose proof (Ht _ H2). unfold ends_before in Hlt. lia.
  - intros (inner & Hin & Hvalid & Hall'). apply Htrue.
    exists (w_start inner). intros d Hd.
    destruct (Hall' _ Hd) as [Hs He]. unfold valid_interval in Hvalid. lia.
  - intros d1 d2 -> V1 V2 Hc. apply Htrue.
    unfold valid_interval, contains_interval in *.
    destruct Hc as [[Hs He]|[Hs He]].
    + exists (w_start d2). intros d [<-|[<-|[]]]; lia.
    + exists (w_start d1). intros d [<-|[<-|[]]]; lia.
Qed.

(** In a list of two or more records, a record on which the [try] block
    raises (a timestamp on which [to_datetime] raises, or an entry that
    is missing from the record) makes [check_temporal_overlap] return
    [False]; the exception does not reach the caller. *)
Lemma unparseable_record_returns_false (records : list pyval) :
  (2 <= length records)%nat ->
  (exists r, In r records /\ unparseable r) ->
  check_temporal_overlap records = inr false.
Proof.
  intros Hlen (r & Hin & _ & Hraise).
  rewrite (long_list_scans _ Hlen), scan_records_returns_false; [reflexivity|].
  exists r. auto.
Qed.

(** ** Claims on the rule wrappers *)

Lemma null_or_empty_falsy (v : pyval) : null_or_empty v -> truthy v = false.
Proof. now intros [->| ->]. Qed.

(** C10.  [get_hematological_state] and [get_systemic_toxicity_grade]
    return [None] as soon as one of their inputs is [None] or the empty
    string, whatever the rule table holds. *)
Theorem empty_input_gives_none :
  (forall hemoglobin_state wbc_level,
     null_or_empty hemoglobin_state \/ null_or_empty wbc_level ->
     get_hematological_state hemoglobin_state wbc_level = PNone) /\
  (forall fever_level chills skin_look allergic_state,
     null_or_empty fever_level \/ null_or_empty chills \/
     null_or_empty skin_look \/ null_or_empty allergic_state ->
     get_systemic_toxicity_grade fever_level chills skin_look allergic_state
     = PNone).
Proof.
  split.
  - intros h w H. unfold get_hematological_state.
    destruct H as [H|H]; apply null_or_empty_falsy in H; rewrite H;
      [reflexivity | now rewrite orb_true_r].
  - intros f c s a H. unfold get_systemic_toxicity_grade, py_all. simpl.
    destruct H as [H|[H|[H|H]]]; apply null_or_empty_falsy in H; rewrite H;
      rewrite ?andb_false_r; reflexivity.
Qed.

(** ** Claims on [analyze_treatment] *)

(** C6.  When the hematological result carries an error, the treatment
    analysis returns at once: [treatment_recommendations] is [None] and
    the error is ["Hematological analysis failed: "] followed by the
    upstream error text.  When only the systemic toxicity result carries
    an error, the error is ["Systemic toxicity analysis failed: "]
    followed by that text. *)
Theorem upstream_error_is_propagated
    (patient_id gender hematological_analysis systemic_toxicity_analysis e : pyval) :
  (field hematological_analysis "error" = Some e ->
   analyze_treatment patient_id gender hematological_analysis
                     systemic_toxicity_analysis
   = inr (treatment_error_result patient_id
            ("Hematological analysis failed: " ++ py_format e)) /\
   contains "Hematological analysis failed"
            ("Hematological analysis failed: " ++ py_format e) = true /\
   contains (py_format e)
            ("Hematological analysis failed: " ++ py_format e) = true) /\
  (py_in "error" hematological_analysis = inr false ->
   field systemic_toxicity_analysis "error" = Some e ->
   analyze_treatment patient_id gender hematological_analysis
                     systemic_toxicity_analysis
   = inr (treatment_error_result patient_id
            ("Systemic toxicity analysis failed: " ++ py_format e)) /\
   contains "Systemic toxicity analysis failed"
            ("Systemic toxicity analysis failed: " ++ py_format e) = true /\
   contains (py_format e)
            ("Systemic toxicity analysis failed: " ++ py_format e) = true).
Proof.
  split.
  - intros He. split; [|split].
    + destruct hematological_analysis; try discriminate.
      unfold analyze_treatment. simpl in *. rewrite He. reflexivity.
    + apply (contains_at_start "Hematological analysis failed").
    + apply contains_at_end.
  - intros Hin He. split; [|split].
    + destruct systemic_toxicity_analysis; try discriminate.
      unfold analyze_treatment. rewrite Hin. simpl in *. rewrite He. reflexivity.
    + apply (contains_at_start "Systemic toxicity analysis failed").
    + apply contains_at_end.
Qed.

Lemma field_getitem (result : pyval) (k : string) (v : pyval) :
  field result k = Some v -> getitem_str result k = inr v.
Proof.
  destruct result; try discriminate. simpl. now intros ->.
Qed.

Lemma field_none_py_in (entries : list (string * pyval)) (k : string) :
  field (PDict entries) k = None -> py_in k (PDict entries) = inr false.
Proof. simpl. now intros ->. Qed.

Lemma field_some_is_dict (result : pyval) (k : string) (v : pyval) :
  field result k = Some v -> exists entries, result = PDict entries.
Proof. destruct result; try discriminate. eauto. Qed.

(** C7.  With upstream results that carry no error, the four values the
    treatment analysis works on are the caller's [gender], the
    [hemoglobin_state] entry of the hematological result's
    [individual_states], its derived [hematological_state], and the
    derived [systemic_toxicity_grade] of the toxicity result.  When one
    of them is falsy the result is an error that lists, in this order,
    the names of the falsy ones; otherwise the result carries the four
    values as [clinical_inputs] and the lookup of exactly these four in
    [TREATMENT_RULES]. *)
Theorem treatment_lookup_inputs
    (patient_id gender hematological_analysis systemic_toxicity_analysis : pyval)
    (individual_states hemoglobin_state hematological_state
     systemic_toxicity_grade : pyval) :
  field hematological_analysis "error" = None ->
  field systemic_toxicity_analysis "error" = None ->
  field hematological_analysis "individual_states" = Some individual_states ->
  field individual_states "hemoglobin_state" = Some hemoglobin_state ->
  field hematological_analysis "hematological_state" = Some hematological_state ->
  field systemic_toxicity_analysis "systemic_toxicity_grade"
  = Some systemic_toxicity_grade ->
  let input_values :=
    treatment_inputs gender hemoglobin_state hematological_state
                     systemic_toxicity_grade in
  let missing :=
    map fst (filter (fun p => negb (truthy (snd p))) input_values) in
  analyze_treatment patient_id gender hematological_analysis
                    systemic_toxicity_analysis
  = inr (match missing with
         | [] =>
             PDict [("patient_id", patient_id);
                    ("clinical_inputs", PDict input_values);
                    ("treatment_recommendations",
                       apply_rule TREATMENT_RULES input_values)]
         | _ :: _ =>
             treatment_error_result patient_id
               ("Missing required parameters for treatment analysis: "
                ++ join ", " missing)
         end).
Proof.
  intros Heh Het Hstates Hhs Hst Hg input_values missing.
  destruct (field_some_is_dict _ _ _ Hstates) as [he ->].
  destruct (field_some_is_dict _ _ _ Hg) as [te ->].
  unfold analyze_treatment.
  rewrite (field_none_py_in _ _ Heh), (field_none_py_in _ _ Het).
  cbn [bind Monad_either].
  rewrite (field_getitem _ _ _ Hstates), (field_getitem _ _ _ Hhs),
    (field_getitem _ _ _ Hst), (field_getitem _ _ _ Hg).
  subst missing input_values. unfold treatment_inputs, missing_parameters, py_all.
  cbn [forallb filter map fst snd].
  destruct (truthy gender), (truthy hemoglobin_state),
    (truthy hematological_state), (truthy systemic_toxicity_grade);
    reflexivity.
Qed.

(** ** The fetching analyses *)

(** C9 (as amended).  In a successful hematological analysis whose two
    reported [individual_states] are both non-empty, the
    [hematological_state] reported is what the rule lookup gives on them
    in [HEMATOLOGICAL_RULES]; when one of the two is [None] or empty, the
    state reported is [None], whatever the table holds. *)
Theorem hematological_round_trip (patient_id result : pyval) :
  analyze_patient_hematological_state patient_id = inr result ->
  field result "error" = None ->
  exists individual_states hemoglobin_state wbc_level hematological_state,
    field result "individual_states" = Some individual_states /\
    field individual_states "hemoglobin_state" = Some hemoglobin_state /\
    field individual_states "wbc_level" = Some wbc_level /\
    field result "hematological_state" = Some hematological_state /\
    (truthy hemoglobin_state = true -> truthy wbc_level = true ->
     apply_rule HEMATOLOGICAL_RULES
       [("hemoglobin_state", hemoglobin_state); ("wbc_level", wbc_level)]
     = hematological_state) /\
    (truthy hemoglobin_state = false \/ truthy wbc_level = false ->
     hematological_state = PNone).
Proof.
  intros H Hok. unfold analyze_patient_hematological_state in H.
  run_in H; inversion H; subst; try discriminate Hok.
  do 4 eexists. repeat (split; [reflexivity|]).
  unfold get_hematological_state. split.
  - intros Hh Hw. now rewrite Hh, Hw.
  - intros [Hf|Hf]; rewrite Hf; [reflexivity | now rewrite orb_true_r].
Qed.

(** The completed loop has appended one entry per record. *)
Lemma scan_records_length (records : list pyval) :
  forall acc ds, scan_records records acc = Completed ds ->
  length ds = (length acc + length records)%nat.
Proof.
  induction records as [|record rest IH]; intros acc ds H.
  - simpl in H. inversion H. simpl. lia.
  - rewrite scan_records_cons in H.
    destruct (is_none record); [discriminate|].
    destruct (to_datetime_record record); [discriminate|].
    apply IH in H. rewrite H, length_app. simpl. lia.
Qed.

(** [check_temporal_overlap] returns a boolean when the timestamps that
    parse are [NaT] or Timestamps of one tz-awareness. *)
Lemma check_temporal_overlap_total (aware : bool) (records : list pyval) :
  Forall (orderly_record aware) records ->
  exists b, check_temporal_overlap records = inr b.
Proof.
  intros Hord. destruct (Nat.ltb_spec (length records) 2) as [Hlt|Hge].
  - exists true. now apply short_list_overlaps.
  - rewrite (long_list_scans _ Hge).
    destruct (scan_records records []) as [b|ds] eqn:Hscan; [now exists b|].
    assert (forall d, In d ds ->
              orderly aware (dt_start d) /\ orderly aware (dt_end d)) as Hds.
    { intros d Hd.
      destruct (scan_records_origin _ _ _ Hscan d Hd) as [[]|(r & Hr & Hparse)].
      rewrite Forall_forall in Hord. exact (Hord r Hr d Hparse). }
    apply scan_records_length in Hscan. simpl in Hscan.
    destruct ds as [|d ds]; [simpl in Hscan; lia|].
    cbn [map py_max py_min].
    destruct (extremum_orderly OpGt aware (map dt_start ds) (dt_start d))
      as (ls & -> & Hls).
    { apply Hds. now left. }
    { apply Forall_forall. intros x Hx.
      apply in_map_iff in Hx as (d' & <- & Hd'). apply Hds. now right. }
    cbn [bind Monad_either].
    destruct (extremum_orderly OpLt aware (map dt_end ds) (dt_end d))
      as (ee & -> & Hee).
    { apply Hds. now left. }
    { apply Forall_forall. intros x Hx.
      apply in_map_iff in Hx as (d' & <- & Hd'). apply Hds. now right. }
    cbn [bind Monad_either]. now apply (pd_compare_orderly OpLe aware).
Qed.

Lemma value_or_none_falsy (record : pyval) :
  truthy record = false -> value_or_none record = inr PNone.
Proof. unfold value_or_none. now intros ->. Qed.

Lemma value_or_none_truthy (record : pyval) :
  truthy record = true -> value_or_none record = getitem_str record "value".
Proof. unfold value_or_none. now intros ->. Qed.

Lemma wellformed_record_value (record : pyval) :
  wellformed_record record -> exists v, value_or_none record = inr v.
Proof.
  intros [Hf|(entries & v & -> & Hv)].
  - rewrite (value_or_none_falsy _ Hf). eauto.
  - unfold value_or_none.
    destruct (truthy (PDict entries)); [simpl; rewrite Hv|]; eexists; reflexivity.
Qed.

Lemma wellformed_truthy_value (record : pyval) :
  wellformed_record record -> truthy record = true ->
  exists v, getitem_str record "value" = inr v.
Proof.
  intros H Ht. destruct (wellformed_record_value _ H) as [v Hv].
  rewrite (value_or_none_truthy _ Ht) in Hv. eauto.
Qed.

Lemma both_truthy (a b : pyval) :
  negb (truthy a) || negb (truthy b) = false ->
  truthy a = true /\ truthy b = true.
Proof. destruct (truthy a), (truthy b); simpl; auto; discriminate. Qed.

(** No concept is missing exactly when the four records are truthy. *)
Lemma nothing_missing (f c s a : pyval) :
  truthy (PList (map PStr (missing_concepts_of [f; c; s; a]))) = false ->
  truthy f = true /\ truthy c = true /\ truthy s = true /\ truthy a = true.
Proof.
  unfold missing_concepts_of. simpl.
  destruct (truthy f), (truthy c), (truthy s), (truthy a); simpl; auto;
    discriminate.
Qed.

Lemma raw_input_intro (patient_id : pyval) (concept_name key : string)
    (states record v : pyval) :
  get_latest_abstracted_value patient_id concept_name = inr record ->
  (value_or_none record = inr v \/
   truthy record = true /\ getitem_str record "value" = inr v) ->
  field states key = Some v ->
  raw_input patient_id concept_name key states.
Proof.
  intros Hget Hv Hfield. exists record, v. repeat split; auto.
  destruct Hv as [Hv|[Ht Hv]]; [exact Hv|].
  now rewrite (value_or_none_truthy _ Ht).
Qed.

Lemma hematological_result_shape (patient_id result : pyval) :
  analyze_patient_hematological_state patient_id = inr result ->
  field result "patient_id" = Some patient_id /\
  (exists individual_states,
     field result "individual_states" = Some individual_states /\
     raw_input patient_id "Hemoglobin_Level" "hemoglobin_state" individual_states /\
     raw_input patient_id "WBC_Level" "wbc_level" individual_states) /\
  error_xor_marker result "hematological_state".
Proof.
  intros H. unfold analyze_patient_hematological_state in H.
  run_in H; inversion H; subst; clear H;
    try (match goal with
         | Hb : negb (truthy _) || negb (truthy _) = false |- _ =>
             apply both_truthy in Hb; destruct Hb
         end);
    (split; [reflexivity|]); (split; [eexists; split; [reflexivity|]; split|]).
  all: try (eapply raw_input_intro; eauto; reflexivity).
  all: unfold error_xor_marker; simpl; eauto 10.
Qed.

Lemma toxicity_result_shape (patient_id result : pyval) :
  analyze_patient_systemic_toxicity patient_id = inr result ->
  field result "patient_id" = Some patient_id /\
  (exists individual_states,
     field result "individual_states" = Some individual_states /\
     raw_input patient_id "Fever_Level" "fever_level" individual_states /\
     raw_input patient_id "Chills" "chills" individual_states /\
     raw_input patient_id "Skin-Look" "skin_look" individual_states /\
     raw_input patient_id "Allergic-State" "allergic_state" individual_states) /\
  error_xor_marker result "systemic_toxicity_grade".
Proof.
  intros H. unfold analyze_patient_systemic_toxicity in H.
  run_in H; inversion H; subst; clear H;
    try (match goal with
         | Hb : truthy (PList (map PStr (missing_concepts_of _))) = false |- _ =>
             apply nothing_missing in Hb; destruct Hb as (? & ? & ? & ?)
         end);
    (split; [reflexivity|]);
    (split; [eexists; split; [reflexivity|]; repeat split|]).
  all: try (eapply raw_input_intro; eauto; reflexivity).
  all: unfold error_xor_marker; simpl; eauto 10.
Qed.

Lemma treatment_result_shape
    (patient_id gender hematological_analysis systemic_toxicity_analysis
     result : pyval) :
  analyze_treatment patient_id gender hematological_analysis
                    systemic_toxicity_analysis = inr result ->
  field result "patient_id" = Some patient_id /\
  field result "temporal_overlap" = None /\
  error_xor_inputs result.
Proof.
  intros H. unfold analyze_treatment in H.
  run_in H; inversion H; subst; clear H;
    (split; [reflexivity|]); (split; [reflexivity|]);
    unfold error_xor_inputs; simpl; eauto 10.
Qed.

(** ** Claims on the analyses *)

(** C2 (as amended).  Every result of the hematological and of the
    systemic toxicity analysis holds [patient_id] and
    [individual_states], the raw inputs with [None] for the missing
    ones, and holds either an error string with a null derived value and
    no marker, or the derived value with the marker
    [temporal_overlap = True] and no error.  Every result of the
    treatment analysis holds [patient_id] and never the marker; it holds
    either an error string with null recommendations, or the
    recommendations with [clinical_inputs] and no error. *)
Theorem result_fields
    (patient_id gender hematological_analysis systemic_toxicity_analysis
     result : pyval) :
  (analyze_patient_hematological_state patient_id = inr result ->
   field result "patient_id" = Some patient_id /\
   (exists individual_states,
      field result "individual_states" = Some individual_states /\
      raw_input patient_id "Hemoglobin_Level" "hemoglobin_state" individual_states /\
      raw_input patient_id "WBC_Level" "wbc_level" individual_states) /\
   error_xor_marker result "hematological_state") /\
  (analyze_patient_systemic_toxicity patient_id = inr result ->
   field result "patient_id" = Some patient_id /\
   (exists individual_states,
      field result "individual_states" = Some individual_states /\
      raw_input patient_id "Fever_Level" "fever_level" individual_states /\
      raw_input patient_id "Chills" "chills" individual_states /\
      raw_input patient_id "Skin-Look" "skin_look" individual_states /\
      raw_input patient_id "Allergic-State" "allergic_state" individual_states) /\
   error_xor_marker result "systemic_toxicity_grade") /\
  (analyze_treatment patient_id gender hematological_analysis
                     systemic_toxicity_analysis = inr result ->
   field result "patient_id" = Some patient_id /\
   field result "temporal_overlap" = None /\
   error_xor_inputs result).
Proof.
  split; [|split].
  - apply hematological_result_shape.
  - apply toxicity_result_shape.
  - apply treatment_result_shape.
Qed.

Lemma error_field_py_in (result e : pyval) :
  field result "error" = Some e ->
  py_in "error" result = inr true /\ getitem_str result "error" = inr e.
Proof.
  destruct result; try discriminate. simpl. now intros ->.
Qed.

Lemma no_error_field_py_in (result : pyval) (k : string) (v : pyval) :
  field result "error" = None -> field result k = Some v ->
  py_in "error" result = inr false.
Proof.
  destruct result; try discriminate. simpl. now intros ->.
Qed.

(** C5 (as amended).  When each record fetched for the analysis is
    either falsy or a dictionary with a ['value'] entry, and the
    timestamps that parse are [NaT] or Timestamps of one tz-awareness,
    the hematological and the systemic toxicity analysis return a result
    dictionary; and on the results of these two analyses the treatment
    analysis returns a result dictionary, for every gender value. *)
Theorem analyses_return_on_wellformed_records
    (patient_id gender : pyval) (aware : bool) :
  (wellformed_fetch patient_id "Hemoglobin_Level" ->
   wellformed_fetch patient_id "WBC_Level" ->
   orderly_fetch aware patient_id "Hemoglobin_Level" ->
   orderly_fetch aware patient_id "WBC_Level" ->
   exists entries,
     analyze_patient_hematological_state patient_id = inr (PDict entries)) /\
  ((forall concept_name, In concept_name concept_names ->
      wellformed_fetch patient_id concept_name /\
      orderly_fetch aware patient_id concept_name) ->
   exists entries,
     analyze_patient_systemic_toxicity patient_id = inr (PDict entries)) /\
  (forall hematological_analysis systemic_toxicity_analysis,
     analyze_patient_hematological_state patient_id = inr hematological_analysis ->
     analyze_patient_systemic_toxicity patient_id = inr systemic_toxicity_analysis ->
     exists entries,
       analyze_treatment patient_id gender hematological_analysis
                         systemic_toxicity_analysis = inr (PDict entries)).
Proof.
  split; [|split].
  - intros (hr & Hh & Wh) (wr & Hw & Ww) Oh Ow.
    specialize (Oh _ Hh). specialize (Ow _ Hw).
    unfold analyze_patient_hematological_state.
    rewrite Hh. cbn [bind Monad_either]. rewrite Hw.
    destruct (negb (truthy hr) || negb (truthy wr)) eqn:Hb.
    + destruct (wellformed_record_value _ Wh) as [h ->].
      destruct (wellformed_record_value _ Ww) as [w ->].
      eexists. reflexivity.
    + apply both_truthy in Hb as [Th Tw].
      destruct (check_temporal_overlap_total aware [hr; wr]) as [b ->].
      { constructor; [exact Oh|]. constructor; [exact Ow|]. constructor. }
      destruct (wellformed_truthy_value _ Wh Th) as [h ->].
      destruct (wellformed_truthy_value _ Ww Tw) as [w ->].
      destruct b; eexists; reflexivity.
  - intros Hall.
    destruct (Hall "Fever_Level") as ((fr & Hf & Wf) & Of); [simpl; auto|].
    destruct (Hall "Chills") as ((cr & Hc & Wc) & Oc); [simpl; auto|].
    destruct (Hall "Skin-Look") as ((sr & Hs & Ws) & Os); [simpl; auto|].
    destruct (Hall "Allergic-State") as ((ar & Ha & Wa) & Oa); [simpl; auto 6|].
    specialize (Of _ Hf). specialize (Oc _ Hc).
    specialize (Os _ Hs). specialize (Oa _ Ha).
    unfold analyze_patient_systemic_toxicity.
    rewrite Hf. cbn [bind Monad_either]. rewrite Hc. rewrite Hs. rewrite Ha.
    destruct (truthy (PList (map PStr (missing_concepts_of [fr; cr; sr; ar]))))
      eqn:Hm.
    + destruct (wellformed_record_value _ Wf) as [f ->].
      destruct (wellformed_record_value _ Wc) as [c ->].
      destruct (wellformed_record_value _ Ws) as [s' ->].
      destruct (wellformed_record_value _ Wa) as [a ->].
      eexists. reflexivity.
    + apply nothing_missing in Hm as (Tf & Tc & Ts & Ta).
      destruct (check_temporal_overlap_total aware [fr; cr; sr; ar]) as [b ->].
      { constructor; [exact Of|]. constructor; [exact Oc|].
        constructor; [exact Os|]. constructor; [exact Oa|]. constructor. }
      destruct (wellformed_truthy_value _ Wf Tf) as [f ->].
      destruct (wellformed_truthy_value _ Wc Tc) as [c ->].
      destruct (wellformed_truthy_value _ Ws Ts) as [s' ->].
      destruct (wellformed_truthy_value _ Wa Ta) as [a ->].
      destruct b; eexists; reflexivity.
  - intros h t Hh Ht.
    destruct (hematological_result_shape _ _ Hh)
      as (_ & (states & Hstates & (r1 & v1 & _ & _ & Hv1) & _) & Hx).
    destruct (toxicity_result_shape _ _ Ht) as (_ & _ & Hx').
    unfold analyze_treatment.
    destruct Hx as [((e & He) & _ & _)|(Hne & (st & Hst) & _)].
    + destruct (error_field_py_in _ _ He) as [-> ->]. eexists. reflexivity.
    + rewrite (no_error_field_py_in _ _ _ Hne Hst). cbn [bind Monad_either].
      destruct Hx' as [((e & He) & _ & _)|(Hne' & (g & Hg) & _)].
      * destruct (error_field_py_in _ _ He) as [-> ->]. eexists. reflexivity.
      * rewrite (no_error_field_py_in _ _ _ Hne' Hg). cbn [bind Monad_either].
        rewrite (field_getitem _ _ _ Hstates), (field_getitem _ _ _ Hv1),
          (field_getitem _ _ _ Hst), (field_getitem _ _ _ Hg).
        destruct (negb (py_all [gender; v1; st; g])); eexists; reflexivity.
Qed.

(** X7.  The systemic toxicity analysis names the missing concepts: when
    a record is missing its error lists the missing names, comma-joined,
    in the declared order, whatever the timestamps of the records that
    are present; it contains ["Fever_Level"] when the fever record is
    missing. *)
Lemma toxicity_error_names_missing_concepts
    (patient_id fever_record chills_record skin_record allergic_record
     f c s a : pyval) :
  get_latest_abstracted_value patient_id "Fever_Level" = inr fever_record ->
  get_latest_abstracted_value patient_id "Chills" = inr chills_record ->
  get_latest_abstracted_value patient_id "Skin-Look" = inr skin_record ->
  get_latest_abstracted_value patient_id "Allergic-State" = inr allergic_record ->
  value_or_none fever_record = inr f ->
  value_or_none chills_record = inr c ->
  value_or_none skin_record = inr s ->
  value_or_none allergic_record = inr a ->
  let missing :=
    missing_concepts_of
      [fever_record; chills_record; skin_record; allergic_record] in
  let message := "Missing required abstracted data for: " ++ join ", " missing in
  missing <> [] ->
  analyze_patient_systemic_toxicity patient_id
  = inr (PDict
      [("patient_id", patient_id);
       ("individual_states",
          PDict [("fever_level", f); ("chills", c);
                 ("skin_look", s); ("allergic_state", a)]);
       ("systemic_toxicity_grade", PNone);
       ("error", PStr message)]) /\
  (truthy fever_record = false -> contains "Fever_Level" message = true).
Proof.
  intros Hf Hc Hs Ha Vf Vc Vs Va missing message Hne. split.
  - unfold analyze_patient_systemic_toxicity.
    rewrite Hf. cbn [bind Monad_either]. rewrite Hc. rewrite Hs. rewrite Ha.
    assert (truthy (PList (map PStr missing)) = true) as Ht.
    { destruct missing; [now elim Hne | reflexivity]. }
    subst message missing. cbv zeta. rewrite Ht.
    rewrite Vf. cbn [bind Monad_either]. rewrite Vc. rewrite Vs. rewrite Va.
    reflexivity.
  - intros Tf. subst message missing. unfold missing_concepts_of.
    cbn [combine concept_names filter fst]. rewrite Tf.
    cbn [negb map snd].
    set (rest := map snd _).
    assert (exists tail, join ", " ("Fever_Level" :: rest) = "Fever_Level" ++ tail)
      as [tail ->].
    { destruct rest; [exists ""|eexists]; reflexivity. }
    apply contains_app.
Qed.

(** ** Further properties of [check_temporal_overlap] *)

Lemma stamps_inj (aware : bool) (w w' : window) :
  stamps aware w = stamps aware w' -> w = w'.
Proof. destruct w, w'. unfold stamps. simpl. intros H. now inversion H. Qed.

Lemma timestamped_orderly (aware : bool) (record : pyval) :
  timestamped aware record -> orderly_record aware record.
Proof.
  intros Hts d Hd. destruct (Hts d Hd) as [w ->].
  split; right; eexists; reflexivity.
Qed.

(** A list of records whose timestamps are Timestamps of one
    tz-awareness either holds a record on which the loop returns, or
    parses as a whole. *)
Lemma scan_dichotomy (aware : bool) (records : list pyval) :
  Forall (timestamped aware) records ->
  (exists r, In r records /\
             (r = PNone \/ exists e, to_datetime_record r = inl e)) \/
  (exists ds, Forall2 (parsed_as aware) records ds).
Proof.
  induction records as [|record rest IH]; intros Hts.
  - right. exists []. constructor.
  - inversion Hts as [|? ? Hrecord Hrest]; subst.
    destruct (is_none record) eqn:Hnone.
    { left. exists record. split; [now left|]. left. now destruct record. }
    destruct (to_datetime_record record) as [e|d] eqn:Hrec.
    { left. exists record. split; [now left|]. right. now exists e. }
    destruct (Hrecord d Hrec) as [w ->].
    destruct (IH Hrest) as [(r & Hin & Hbad)|[ds Hall]].
    + left. exists r. split; [now right | exact Hbad].
    + right. exists (w :: ds). constructor; [|exact Hall].
      split; [intros ->; discriminate | exact Hrec].
Qed.

Lemma parsed_in (aware : bool) (records : list pyval) (ds : list window) :
  Forall2 (parsed_as aware) records ds ->
  forall r, In r records ->
  r <> PNone /\
  exists d, In d ds /\ to_datetime_record r = inr (stamps aware d).
Proof.
  induction 1 as [|record d records ds [Hnn Hrec] _ IH]; intros r Hin.
  - destruct Hin.
  - destruct Hin as [<-|Hin].
    + split; [exact Hnn|]. exists d. split; [now left | exact Hrec].
    + destruct (IH _ Hin) as (Hr & d' & Hd' & Hrec'). split; [exact Hr|].
      exists d'. split; [now right | exact Hrec'].
Qed.

Lemma parsed_in_inv (aware : bool) (records : list pyval) (ds : list window) :
  Forall2 (parsed_as aware) records ds ->
  forall d, In d ds ->
  exists r, In r records /\ to_datetime_record r = inr (stamps aware d).
Proof.
  induction 1 as [|record d records ds [Hnn Hrec] _ IH]; intros d' Hin.
  - destruct Hin.
  - destruct Hin as [<-|Hin].
    + exists record. split; [now left | exact Hrec].
    + destruct (IH _ Hin) as (r & Hr & Hrec'). exists r.
      split; [now right | exact Hrec'].
Qed.

Lemma bad_record_gives_false (records : list pyval) :
  (2 <= length records)%nat ->
  (exists r, In r records /\
             (r = PNone \/ exists e, to_datetime_record r = inl e)) ->
  check_temporal_overlap records = inr false.
Proof.
  intros Hlen Hbad.
  now rewrite (long_list_scans _ Hlen), scan_records_returns_false.
Qed.

(** On records whose timestamps are Timestamps of one tz-awareness, a
    [True] on two or more of them means that they all parsed and that
    their windows share an instant. *)
Lemma overlap_true_parsed (aware : bool) (records : list pyval) :
  (2 <= length records)%nat ->
  Forall (timestamped aware) records ->
  check_temporal_overlap records = inr true ->
  exists ds, Forall2 (parsed_as aware) records ds /\ common_instant ds.
Proof.
  intros Hlen Hts Htrue.
  destruct (scan_dichotomy aware records Hts) as [Hbad|[ds Hall]].
  - rewrite (bad_record_gives_false _ Hlen Hbad) in Htrue. discriminate.
  - exists ds. split; [exact Hall|].
    now apply (parsed_list_true_iff aware records).
Qed.

Lemma overlap_true_incl (aware : bool) (records sub : list pyval) :
  (2 <= length records)%nat ->
  Forall (timestamped aware) records ->
  incl sub records ->
  check_temporal_overlap records = inr true ->
  check_temporal_overlap sub = inr true.
Proof.
  intros Hlen Hts Hincl Htrue.
  destruct (overlap_true_parsed _ _ Hlen Hts Htrue) as (ds & Hall & t & Ht).
  destruct (Nat.ltb_spec (length sub) 2) as [Hshort|Hlong].
  { now apply short_list_overlaps. }
  assert (Forall (timestamped aware) sub) as Hts'.
  { rewrite Forall_forall in *. intros r Hr. apply Hts, Hincl, Hr. }
  destruct (scan_dichotomy aware sub Hts') as [(r & Hin & Hbad)|[ds' Hall']].
  - destruct (parsed_in _ _ _ Hall r (Hincl _ Hin)) as (Hnn & d & _ & Hrec).
    destruct Hbad as [->|[e He]]; [now elim Hnn | congruence].
  - apply (parsed_list_true_iff aware sub ds' Hlong Hall').
    exists t. intros d' Hd'.
    destruct (parsed_in_inv _ _ _ Hall' _ Hd') as (r & Hr & Hrec').
    destruct (parsed_in _ _ _ Hall r (Hincl _ Hr)) as (_ & d & Hd & Hrec).
    assert (d' = d) as -> by (apply (stamps_inj aware); congruence).
    now apply Ht.
Qed.

(** X1.  [check_temporal_overlap] returns a boolean, [False] only on
    two or more records, whenever the timestamps that parse are [NaT] or
    Timestamps of one tz-awareness.  Its comparisons are outside the
    [try]: two records whose start times parse to a tz-naive and a
    tz-aware Timestamp make it raise [TypeError] to the caller. *)
Theorem overlap_check_comparability :
  (forall aware records,
     Forall (orderly_record aware) records ->
     exists b,
       check_temporal_overlap records = inr b /\
       (b = false -> (2 <= length records)%nat)) /\
  (forall r1 r2 d1 d2 aware x y,
     r1 <> PNone -> r2 <> PNone ->
     to_datetime_record r1 = inr d1 ->
     to_datetime_record r2 = inr d2 ->
     dt_start d1 = Timestamp aware x ->
     dt_start d2 = Timestamp (negb aware) y ->
     check_temporal_overlap [r1; r2] = inl TypeError).
Proof.
  split.
  - intros aware records Hord.
    destruct (check_temporal_overlap_total aware records Hord) as [b Hb].
    exists b. split; [exact Hb|]. intros ->.
    destruct (Nat.ltb_spec (length records) 2) as [Hshort|Hlong]; [|exact Hlong].
    rewrite (short_list_overlaps _ Hshort) in Hb. discriminate.
  - intros r1 r2 d1 d2 aware x y N1 N2 P1 P2 S1 S2.
    rewrite (long_list_scans [r1; r2] (le_n 2)).
    rewrite (scan_records_completes [r1; r2] [d1; d2]).
    + cbn [app map py_max extremum_from]. rewrite S1, S2.
      cbn [pd_compare]. now destruct aware.
    + constructor; [split; assumption|].
      constructor; [split; assumption|]. constructor.
Qed.

(** A start time that parses to [NaT] is kept by the loop, and [max]
    then keeps or drops it by its position: after a record with a valid
    window that starts before the end of the second one the result is
    [True], before it the result is [False]. *)
Lemma nat_start_depends_on_position (aware : bool) (r1 r2 : pyval)
    (w1 : window) (e2 : Z) :
  parsed_as aware r1 w1 ->
  valid_interval w1 ->
  w_start w1 <= e2 ->
  r2 <> PNone ->
  to_datetime_record r2 = inr {| dt_start := NaT; dt_end := Timestamp aware e2 |} ->
  check_temporal_overlap [r1; r2] = inr true /\
  check_temporal_overlap [r2; r1] = inr false.
Proof.
  intros [N1 P1] V1 Hle N2 P2. unfold valid_interval in V1.
  rewrite (long_list_scans [r1; r2] (le_n 2)).
  rewrite (long_list_scans [r2; r1] (le_n 2)). split.
  - rewrite (scan_records_completes [r1; r2]
               [stamps aware w1; {| dt_start := NaT; dt_end := Timestamp aware e2 |}]).
    + cbn [app map py_max py_min extremum_from stamps dt_start dt_end pd_compare
           bind ret Monad_either].
      rewrite Bool.eqb_reflx. cbn [bind ret Monad_either compare_instants].
      destruct (Z.ltb_spec e2 (w_end w1));
        cbn [pd_compare]; rewrite Bool.eqb_reflx;
        cbn [compare_instants]; f_equal; apply Z.leb_le; lia.
    + constructor; [split; assumption|].
      constructor; [split; assumption|]. constructor.
  - rewrite (scan_records_completes [r2; r1]
               [{| dt_start := NaT; dt_end := Timestamp aware e2 |}; stamps aware w1]).
    + cbn [app map py_max py_min extremum_from stamps dt_start dt_end pd_compare
           bind ret Monad_either].
      rewrite Bool.eqb_reflx. cbn [bind ret Monad_either compare_instants].
      destruct (w_end w1 <? e2); reflexivity.
    + constructor; [split; assumption|].
      constructor; [split; assumption|]. constructor.
Qed.

(** X2.  On records whose timestamps are Timestamps of one
    tz-awareness, the result does not depend on the order of the
    records. *)
Theorem overlap_order_irrelevant (aware : bool) (records records' : list pyval) :
  Forall (timestamped aware) records ->
  Permutation records records' ->
  check_temporal_overlap records = check_temporal_overlap records'.
Proof.
  intros Hts Hperm. pose proof (Permutation_length Hperm) as Hlen.
  assert (Forall (timestamped aware) records') as Hts'.
  { rewrite Forall_forall in *. intros r Hr.
    apply Hts, (Permutation_in r (Permutation_sym Hperm) Hr). }
  destruct (Nat.ltb_spec (length records) 2) as [Hshort|Hlong].
  { rewrite !short_list_overlaps; [reflexivity | lia | lia]. }
  assert (2 <= length records')%nat as Hlong' by lia.
  destruct (check_temporal_overlap_total aware records) as [[|] Hb].
  { eapply Forall_impl; [apply timestamped_orderly | exact Hts]. }
  all: destruct (check_temporal_overlap_total aware records') as [[|] Hb'];
    try (eapply Forall_impl; [apply timestamped_orderly | exact Hts']);
    rewrite Hb, Hb'; try reflexivity.
  - rewrite (overlap_true_incl aware records records' Hlong Hts) in Hb';
      [discriminate| |exact Hb].
    intros r Hr. apply (Permutation_in r (Permutation_sym Hperm) Hr).
  - rewrite (overlap_true_incl aware records' records Hlong' Hts') in Hb;
      [discriminate| |exact Hb'].
    intros r Hr. apply (Permutation_in r Hperm Hr).
Qed.

(** X3.  On records whose timestamps are Timestamps of one
    tz-awareness: when a list of two or more records overlaps, so does
    every list made of records of that list; dropping or repeating
    records never turns [True] into [False]. *)
Theorem overlap_of_selection (aware : bool) (records selection : list pyval) :
  (2 <= length records)%nat ->
  Forall (timestamped aware) records ->
  incl selection records ->
  check_temporal_overlap records = inr true ->
  check_temporal_overlap selection = inr true.
Proof. exact (overlap_true_incl aware records selection). Qed.

(** X4.  On two or more records that parse to Timestamps of one
    tz-awareness, the result is [True] exactly when every record starts
    no later than every record ends, itself included; so one record
    whose start is after its end makes the result [False]. *)
Theorem overlap_iff_pairwise (aware : bool) (records : list pyval)
    (ds : list window) :
  (2 <= length records)%nat ->
  Forall2 (parsed_as aware) records ds ->
  (check_temporal_overlap records = inr true <->
   forall d1 d2, In d1 ds -> In d2 ds -> w_start d1 <= w_end d2) /\
  ((exists d, In d ds /\ w_end d < w_start d) ->
   check_temporal_overlap records = inr false).
Proof.
  intros Hlen Hall.
  destruct (parsed_list_compares _ _ _ Hlen Hall) as (ls & ee & Hmax & Hmin & Heq).
  assert (check_temporal_overlap records = inr true <->
          forall d1 d2, In d1 ds -> In d2 ds -> w_start d1 <= w_end d2)
    as Hiff.
  { rewrite Heq. destruct Hmax as [Hls Hub], Hmin as [Hee Hlb]. split.
    - intros H d1 d2 H1 H2. inversion H as [Hle]. apply Z.leb_le in Hle.
      specialize (Hub _ (in_map w_start _ _ H1)).
      specialize (Hlb _ (in_map w_end _ _ H2)). lia.
    - intros Hpair.
      apply in_map_iff in Hls as (d1 & <- & H1).
      apply in_map_iff in Hee as (d2 & <- & H2).
      f_equal. apply Z.leb_le. now apply Hpair. }
  split; [exact Hiff|].
  intros (d & Hd & Hinv). rewrite Heq.
  destruct (ls <=? ee) eqn:Hle; [|reflexivity].
  rewrite Heq in Hiff. pose proof (proj1 Hiff eq_refl d d Hd Hd). lia.
Qed.

(** ** Further properties of the fetching analyses *)

Lemma getitem_str_truthy (record : pyval) (k : string) (v : pyval) :
  getitem_str record k = inr v -> truthy record = true.
Proof.
  destruct record as [| | | | | |entries]; try discriminate.
  destruct entries; [discriminate | reflexivity].
Qed.

(** With both records present, the hematological analysis is decided by
    the overlap check. *)
Lemma hematological_on_present
    (patient_id hemoglobin_record wbc_record hemoglobin_state wbc_level : pyval)
    (overlap : bool) :
  get_latest_abstracted_value patient_id "Hemoglobin_Level"
  = inr hemoglobin_record ->
  get_latest_abstracted_value patient_id "WBC_Level" = inr wbc_record ->
  getitem_str hemoglobin_record "value" = inr hemoglobin_state ->
  getitem_str wbc_record "value" = inr wbc_level ->
  check_temporal_overlap [hemoglobin_record; wbc_record] = inr overlap ->
  analyze_patient_hematological_state patient_id
  = inr (if overlap
         then hematological_success patient_id hemoglobin_state wbc_level
                (get_hematological_state hemoglobin_state wbc_level)
         else hematological_failure patient_id hemoglobin_state wbc_level
                "No temporal overlap between hemoglobin and WBC measurements").
Proof.
  intros Hh Hw Vh Vw Hcheck. unfold analyze_patient_hematological_state.
  rewrite Hh. cbn [bind Monad_either]. rewrite Hw.
  rewrite (getitem_str_truthy _ _ _ Vh), (getitem_str_truthy _ _ _ Vw).
  cbn [negb orb]. rewrite Hcheck. cbn [bind Monad_either].
  destruct overlap; cbn [negb]; rewrite Vh; cbn [bind Monad_either]; rewrite Vw;
    reflexivity.
Qed.

Lemma toxicity_on_present
    (patient_id fever_record chills_record skin_record allergic_record
     f c s a : pyval) (overlap : bool) :
  get_latest_abstracted_value patient_id "Fever_Level" = inr fever_record ->
  get_latest_abstracted_value patient_id "Chills" = inr chills_record ->
  get_latest_abstracted_value patient_id "Skin-Look" = inr skin_record ->
  get_latest_abstracted_value patient_id "Allergic-State" = inr allergic_record ->
  getitem_str fever_record "value" = inr f ->
  getitem_str chills_record "value" = inr c ->
  getitem_str skin_record "value" = inr s ->
  getitem_str allergic_record "value" = inr a ->
  check_temporal_overlap
    [fever_record; chills_record; skin_record; allergic_record] = inr overlap ->
  analyze_patient_systemic_toxicity patient_id
  = inr (if overlap
         then toxicity_success patient_id f c s a
                (get_systemic_toxicity_grade f c s a)
         else toxicity_failure patient_id f c s a
                "No temporal overlap between all required measurements").
Proof.
  intros Hf Hc Hs Ha Vf Vc Vs Va Hcheck.
  unfold analyze_patient_systemic_toxicity.
  rewrite Hf. cbn [bind Monad_either]. rewrite Hc. rewrite Hs. rewrite Ha.
  unfold missing_concepts_of. cbn [combine concept_names filter fst].
  rewrite (getitem_str_truthy _ _ _ Vf), (getitem_str_truthy _ _ _ Vc),
    (getitem_str_truthy _ _ _ Vs), (getitem_str_truthy _ _ _ Va).
  cbn [negb map truthy length Nat.eqb]. rewrite Hcheck. cbn [bind Monad_either].
  destruct overlap; cbn [negb]; rewrite Vf; cbn [bind Monad_either];
    rewrite Vc; rewrite Vs; rewrite Va; reflexivity.
Qed.

(** X5.  A hematological result that carries [temporal_overlap = True]
    comes from two records that were both fetched and present and on
    which [check_temporal_overlap] returned [True]; it carries no error.
    When the timestamps of the two records are Timestamps of one
    tz-awareness, both records parsed and their validity windows share an
    instant. *)
Theorem hematological_marker_sound (patient_id result : pyval) :
  analyze_patient_hematological_state patient_id = inr result ->
  field result "temporal_overlap" = Some (PBool true) ->
  exists hemoglobin_record wbc_record,
    get_latest_abstracted_value patient_id "Hemoglobin_Level"
    = inr hemoglobin_record /\
    get_latest_abstracted_value patient_id "WBC_Level" = inr wbc_record /\
    truthy hemoglobin_record = true /\
    truthy wbc_record = true /\
    check_temporal_overlap [hemoglobin_record; wbc_record] = inr true /\
    field result "error" = None /\
    forall aware,
      timestamped aware hemoglobin_record ->
      timestamped aware wbc_record ->
      exists dh dw,
        parsed_as aware hemoglobin_record dh /\
        parsed_as aware wbc_record dw /\
        common_instant [dh; dw].
Proof.
  intros H Hmark. unfold analyze_patient_hematological_state in H.
  run_in H; inversion H; subst; clear H; try discriminate Hmark.
  match goal with
  | Hc : check_temporal_overlap [?hr; ?wr] = inr ?b, Hb : negb ?b = false,
    Ht : negb (truthy ?hr) || negb (truthy ?wr) = false |- _ =>
      destruct b; [clear Hb | discriminate Hb];
      apply both_truthy in Ht; destruct Ht as [Th Tw];
      exists hr, wr; repeat (split; [assumption || reflexivity|]);
      intros aware Tsh Tsw;
      destruct (overlap_true_parsed aware [hr; wr] (le_n 2))
        as (ds & Hall & Hcommon);
        [constructor; [exact Tsh|]; constructor; [exact Tsw|]; constructor
        | exact Hc |]
  end.
  inversion Hall as [|? dh ? ds1 Ph Hall1]; subst.
  inversion Hall1 as [|? dw ? ds2 Pw Hall2]; subst.
  inversion Hall2; subst.
  exists dh, dw. repeat (split; [assumption|]). assumption.
Qed.

(** X6.  A systemic toxicity result that carries [temporal_overlap =
    True] comes from four records that were all fetched and on which
    [check_temporal_overlap] returned [True]; it carries no error.  When
    the timestamps of the four records are Timestamps of one
    tz-awareness, all four parsed and their validity windows share an
    instant. *)
Theorem toxicity_marker_sound (patient_id result : pyval) :
  analyze_patient_systemic_toxicity patient_id = inr result ->
  field result "temporal_overlap" = Some (PBool true) ->
  exists fever_record chills_record skin_record allergic_record,
    get_latest_abstracted_value patient_id "Fever_Level" = inr fever_record /\
    get_latest_abstracted_value patient_id "Chills" = inr chills_record /\
    get_latest_abstracted_value patient_id "Skin-Look" = inr skin_record /\
    get_latest_abstracted_value patient_id "Allergic-State"
    = inr allergic_record /\
    check_temporal_overlap
      [fever_record; chills_record; skin_record; allergic_record] = inr true /\
    field result "error" = None /\
    forall aware,
      Forall (timestamped aware)
        [fever_record; chills_record; skin_record; allergic_record] ->
      exists ds,
        Forall2 (parsed_as aware)
          [fever_record; chills_record; skin_record; allergic_record] ds /\
        common_instant ds.
Proof.
  intros H Hmark. unfold analyze_patient_systemic_toxicity in H.
  run_in H; inversion H; subst; clear H; try discriminate Hmark.
  match goal with
  | Hc : check_temporal_overlap [?fr; ?cr; ?sr; ?ar] = inr ?b,
    Hb : negb ?b = false |- _ =>
      destruct b; [clear Hb | discriminate Hb];
      exists fr, cr, sr, ar; repeat (split; [assumption || reflexivity|]);
      intros aware Hts;
      apply (overlap_true_parsed aware [fr; cr; sr; ar]);
        [simpl; lia | exact Hts | exact Hc]
  end.
Qed.

Lemma windows_never_meet_false (aware : bool) (records : list pyval) :
  (2 <= length records)%nat ->
  windows_never_meet aware records ->
  check_temporal_overlap records = inr false.
Proof.
  intros Hlen [(r & Hin & _ & Hraise)|(ds & d1 & d2 & Hall & H1 & H2 & Hlt)].
  - apply bad_record_gives_false; [exact Hlen|]. exists r. auto.
  - apply (parsed_list_false_iff aware records ds Hlen Hall). intros [t Ht].
    pose proof (Ht _ H1). pose proof (Ht _ H2). unfold ends_before in Hlt. lia.
Qed.

(** X8.  When both hematological records are present and the [try]
    block raises on one of them ([to_datetime] raises on a timestamp, or
    the record has no [start_time] or [end_time] entry), or both parse to
    Timestamps of one tz-awareness and one window ends before the other
    starts, the analysis reports ["No temporal overlap between hemoglobin
    and WBC measurements"], with a null state and both raw values. *)
Theorem hematological_no_overlap_reported
    (patient_id hemoglobin_record wbc_record hemoglobin_state wbc_level : pyval)
    (aware : bool) :
  get_latest_abstracted_value patient_id "Hemoglobin_Level"
  = inr hemoglobin_record ->
  get_latest_abstracted_value patient_id "WBC_Level" = inr wbc_record ->
  getitem_str hemoglobin_record "value" = inr hemoglobin_state ->
  getitem_str wbc_record "value" = inr wbc_level ->
  windows_never_meet aware [hemoglobin_record; wbc_record] ->
  analyze_patient_hematological_state patient_id
  = inr (hematological_failure patient_id hemoglobin_state wbc_level
           "No temporal overlap between hemoglobin and WBC measurements").
Proof.
  intros Hh Hw Vh Vw Hnever.
  apply (hematological_on_present _ _ _ _ _ false Hh Hw Vh Vw).
  apply (windows_never_meet_false aware); [simpl; lia | exact Hnever].
Qed.

(** X9.  When the four toxicity records are present and the [try] block
    raises on one of them, or all four parse to Timestamps of one
    tz-awareness and one window ends before another starts, the analysis
    reports ["No temporal overlap between all required measurements"],
    with a null grade and the four raw values. *)
Theorem toxicity_no_overlap_reported
    (patient_id fever_record chills_record skin_record allergic_record
     f c s a : pyval) (aware : bool) :
  get_latest_abstracted_value patient_id "Fever_Level" = inr fever_record ->
  get_latest_abstracted_value patient_id "Chills" = inr chills_record ->
  get_latest_abstracted_value patient_id "Skin-Look" = inr skin_record ->
  get_latest_abstracted_value patient_id "Allergic-State" = inr allergic_record ->
  getitem_str fever_record "value" = inr f ->
  getitem_str chills_record "value" = inr c ->
  getitem_str skin_record "value" = inr s ->
  getitem_str allergic_record "value" = inr a ->
  windows_never_meet aware
    [fever_record; chills_record; skin_record; allergic_record] ->
  analyze_patient_systemic_toxicity patient_id
  = inr (toxicity_failure patient_id f c s a
           "No temporal overlap between all required measurements").
Proof.
  intros Hf Hc Hs Ha Vf Vc Vs Va Hnever.
  apply (toxicity_on_present _ _ _ _ _ _ _ _ _ false Hf Hc Hs Ha Vf Vc Vs Va).
  apply (windows_never_meet_false aware); [simpl; lia | exact Hnever].
Qed.

(** X10.  When both hematological records are present, parse to
    Timestamps of one tz-awareness, and their windows share an instant,
    the analysis succeeds: no error, the
    marker, both raw values, and as state the lookup of the two values in
    [HEMATOLOGICAL_RULES], or [None] when one of the values is falsy. *)
Theorem hematological_success_on_overlap
    (patient_id hemoglobin_record wbc_record hemoglobin_state wbc_level : pyval)
    (aware : bool) (dh dw : window) :
  get_latest_abstracted_value patient_id "Hemoglobin_Level"
  = inr hemoglobin_record ->
  get_latest_abstracted_value patient_id "WBC_Level" = inr wbc_record ->
  getitem_str hemoglobin_record "value" = inr hemoglobin_state ->
  getitem_str wbc_record "value" = inr wbc_level ->
  parsed_as aware hemoglobin_record dh ->
  parsed_as aware wbc_record dw ->
  common_instant [dh; dw] ->
  analyze_patient_hematological_state patient_id
  = inr (hematological_success patient_id hemoglobin_state wbc_level
           (if truthy hemoglobin_state && truthy wbc_level
            then apply_rule HEMATOLOGICAL_RULES
                   [("hemoglobin_state", hemoglobin_state);
                    ("wbc_level", wbc_level)]
            else PNone)).
Proof.
  intros Hh Hw Vh Vw Ph Pw Hcommon.
  rewrite (hematological_on_present _ _ _ _ _ true Hh Hw Vh Vw).
  - unfold get_hematological_state.
    destruct (truthy hemoglobin_state), (truthy wbc_level); reflexivity.
  - apply (parsed_list_true_iff aware _ [dh; dw]);
      [simpl; lia | | exact Hcommon].
    constructor; [exact Ph|]. constructor; [exact Pw|]. constructor.
Qed.

(** X11.  When the four toxicity records are present, parse to
    Timestamps of one tz-awareness, and their windows share an instant,
    the analysis succeeds: no error, the
    marker, the four raw values, and as grade the lookup of the four
    values in [SYSTEMIC_TOXICITY_RULES], or [None] when one of the values
    is falsy. *)
Theorem toxicity_success_on_overlap
    (patient_id fever_record chills_record skin_record allergic_record
     f c s a : pyval) (aware : bool) (ds : list window) :
  get_latest_abstracted_value patient_id "Fever_Level" = inr fever_record ->
  get_latest_abstracted_value patient_id "Chills" = inr chills_record ->
  get_latest_abstracted_value patient_id "Skin-Look" = inr skin_record ->
  get_latest_abstracted_value patient_id "Allergic-State" = inr allergic_record ->
  getitem_str fever_record "value" = inr f ->
  getitem_str chills_record "value" = inr c ->
  getitem_str skin_record "value" = inr s ->
  getitem_str allergic_record "value" = inr a ->
  Forall2 (parsed_as aware)
    [fever_record; chills_record; skin_record; allergic_record] ds ->
  common_instant ds ->
  analyze_patient_systemic_toxicity patient_id
  = inr (toxicity_success patient_id f c s a
           (if py_all [f; c; s; a]
            then apply_rule SYSTEMIC_TOXICITY_RULES
                   [("fever_level", f); ("chills", c);
                    ("skin_look", s); ("allergic_state", a)]
            else PNone)).
Proof.
  intros Hf Hc Hs Ha Vf Vc Vs Va Hall Hcommon.
  rewrite (toxicity_on_present _ _ _ _ _ _ _ _ _ true Hf Hc Hs Ha Vf Vc Vs Va).
  - unfold get_systemic_toxicity_grade.
    destruct (py_all [f; c; s; a]); reflexivity.
  - apply (parsed_list_true_iff aware _ ds);
      [simpl; lia | exact Hall | exact Hcommon].
Qed.

(** ** Further properties of [get_latest_abstracted_value] and of
    [analyze_treatment] *)

Lemma seq_index_first {A : Type} (x : A) (rest : list A) :
  seq_index (x :: rest) 0 = inr x.
Proof. reflexivity. Qed.

Lemma seq_index_empty {A : Type} : seq_index (@nil A) 0 = inl IndexError.
Proof. reflexivity. Qed.

(** X16.  [get_latest_abstracted_value] gives [None] on a falsy reply
    (no rows), the first column of the first row on a reply whose first
    row is not empty, whatever the other rows and columns hold, and
    raises [IndexError] when the first row is empty. *)
Theorem latest_value_is_first_column (patient_id : pyval) (concept_name : string) :
  let reply :=
    fetch_records GET_LATEST_ABSTRACTED_VALUE_QUERY (patient_id, concept_name) in
  (truthy reply = false ->
   get_latest_abstracted_value patient_id concept_name = inr PNone) /\
  (forall v columns rows,
     reply = PList (PTuple (v :: columns) :: rows) \/
     reply = PList (PList (v :: columns) :: rows) ->
     get_latest_abstracted_value patient_id concept_name = inr v) /\
  (forall rows,
     reply = PList (PTuple [] :: rows) \/ reply = PList (PList [] :: rows) ->
     get_latest_abstracted_value patient_id concept_name = inl IndexError).
Proof.
  intros reply. unfold get_latest_abstracted_value. fold reply.
  split; [|split].
  - now intros ->.
  - intros v columns rows [->| ->]; cbn [truthy length Nat.eqb negb getitem_int];
      rewrite seq_index_first; cbn [bind Monad_either getitem_int];
      apply seq_index_first.
  - intros rows [->| ->]; cbn [truthy length Nat.eqb negb getitem_int];
      rewrite seq_index_first; cbn [bind Monad_either getitem_int];
      apply seq_index_empty.
Qed.

Lemma py_in_scalar (k : string) (v : pyval) :
  is_scalar v = true -> py_in k v = inl TypeError.
Proof. destruct v; try discriminate; reflexivity. Qed.

(** X12.  [analyze_treatment] has no handler of its own: an upstream
    result that is [None], a boolean or an integer makes it raise
    [TypeError] at the test ['error' in ...], and a hematological result
    without error and without [individual_states] makes it raise
    [KeyError]. *)
Theorem treatment_raises_on_malformed_upstream
    (patient_id gender hematological_analysis systemic_toxicity_analysis : pyval) :
  (is_scalar hematological_analysis = true ->
   analyze_treatment patient_id gender hematological_analysis
                     systemic_toxicity_analysis = inl TypeError) /\
  (py_in "error" hematological_analysis = inr false ->
   is_scalar systemic_toxicity_analysis = true ->
   analyze_treatment patient_id gender hematological_analysis
                     systemic_toxicity_analysis = inl TypeError) /\
  (forall entries,
     hematological_analysis = PDict entries ->
     assoc "error" entries = None ->
     assoc "individual_states" entries = None ->
     py_in "error" systemic_toxicity_analysis = inr false ->
     analyze_treatment patient_id gender hematological_analysis
                       systemic_toxicity_analysis = inl KeyError).
Proof.
  unfold analyze_treatment. split; [|split].
  - intros Hs. now rewrite (py_in_scalar _ _ Hs).
  - intros Hin Hs. rewrite Hin. cbn [bind Monad_either].
    now rewrite (py_in_scalar _ _ Hs).
  - intros entries -> He Hstates Hin. cbn [py_in]. rewrite He.
    cbn [bind ret Monad_either]. rewrite Hin. cbn [bind Monad_either getitem_str].
    now rewrite Hstates.
Qed.

(** X13.  When the hematological analysis returned an error, the error
    is one of its two fixed texts, and the treatment analysis run on that
    result reports ["Hematological analysis failed: "] followed by that
    text, for every gender and every toxicity result. *)
Theorem failed_hematological_analysis_blocks_treatment
    (patient_id hematological_analysis : pyval) :
  analyze_patient_hematological_state patient_id = inr hematological_analysis ->
  field hematological_analysis "error" <> None ->
  exists message,
    (message = "Missing required abstracted data for hematological analysis" \/
     message = "No temporal overlap between hemoglobin and WBC measurements") /\
    field hematological_analysis "error" = Some (PStr message) /\
    forall gender systemic_toxicity_analysis,
      analyze_treatment patient_id gender hematological_analysis
                        systemic_toxicity_analysis
      = inr (treatment_error_result patient_id
               ("Hematological analysis failed: " ++ message)).
Proof.
  intros H Herr. unfold analyze_patient_hematological_state in H.
  run_in H; inversion H; subst; clear H.
  - eexists. split; [left; reflexivity|]. split; reflexivity.
  - eexists. split; [right; reflexivity|]. split; reflexivity.
  - now elim Herr.
Qed.

(** X14.  A hematological analysis that succeeded with a null state (no
    row matched, or a value was empty) is no error upstream, but the
    treatment analysis run on it fails and names
    [hematological_state] among the missing parameters. *)
Theorem null_state_surfaces_in_treatment
    (patient_id gender hematological_analysis systemic_toxicity_analysis
     grade : pyval) :
  analyze_patient_hematological_state patient_id = inr hematological_analysis ->
  field hematological_analysis "error" = None ->
  field hematological_analysis "hematological_state" = Some PNone ->
  field systemic_toxicity_analysis "error" = None ->
  field systemic_toxicity_analysis "systemic_toxicity_grade" = Some grade ->
  exists message,
    analyze_treatment patient_id gender hematological_analysis
                      systemic_toxicity_analysis
    = inr (treatment_error_result patient_id message) /\
    contains "hematological_state" message = true.
Proof.
  intros H Hok Hstate Hok' Hgrade.
  destruct (field_some_is_dict _ _ _ Hgrade) as [te ->].
  unfold analyze_patient_hematological_state in H.
  run_in H; inversion H; subst; clear H; try discriminate Hok.
  cbn [field assoc String.eqb Ascii.eqb Bool.eqb] in Hstate.
  inversion Hstate as [Hnone].
  cbn [field] in Hok', Hgrade.
  unfold analyze_treatment.
  cbn [py_in getitem_str assoc String.eqb Ascii.eqb Bool.eqb bind ret
       Monad_either].
  rewrite Hok'. cbn [bind ret Monad_either]. rewrite Hgrade, Hnone.
  cbn [bind ret Monad_either].
  unfold py_all, missing_parameters. cbn [forallb].
  change (truthy PNone) with false.
  repeat match goal with
         | |- context [truthy ?v] => destruct (truthy v)
         end;
    cbn [andb negb]; eexists; (split; [reflexivity|]); reflexivity.
Qed.

(** X15.  End to end: when both fetching analyses succeed, the four
    values of the treatment analysis are the caller's gender, the
    ['value'] of the fetched Hemoglobin_Level record, and the two derived
    values; the result is the lookup of these four in [TREATMENT_RULES],
    or the error that lists the falsy ones. *)
Theorem treatment_uses_fetched_hemoglobin_value
    (patient_id gender hematological_analysis systemic_toxicity_analysis : pyval) :
  analyze_patient_hematological_state patient_id = inr hematological_analysis ->
  analyze_patient_systemic_toxicity patient_id = inr systemic_toxicity_analysis ->
  field hematological_analysis "error" = None ->
  field systemic_toxicity_analysis "error" = None ->
  exists hemoglobin_record hemoglobin_state hematological_state grade,
    get_latest_abstracted_value patient_id "Hemoglobin_Level"
    = inr hemoglobin_record /\
    getitem_str hemoglobin_record "value" = inr hemoglobin_state /\
    field hematological_analysis "hematological_state"
    = Some hematological_state /\
    field systemic_toxicity_analysis "systemic_toxicity_grade" = Some grade /\
    analyze_treatment patient_id gender hematological_analysis
                      systemic_toxicity_analysis
    = inr (if py_all [gender; hemoglobin_state; hematological_state; grade]
           then
             PDict [("patient_id", patient_id);
                    ("clinical_inputs",
                       PDict (treatment_inputs gender hemoglobin_state
                                hematological_state grade));
                    ("treatment_recommendations",
                       apply_rule TREATMENT_RULES
                         (treatment_inputs gender hemoglobin_state
                            hematological_state grade))]
           else
             treatment_error_result patient_id
               ("Missing required parameters for treatment analysis: "
                ++ join ", "
                     (missing_parameters gender hemoglobin_state
                        hematological_state grade))).
Proof.
  intros Hh Ht Hok Hok'.
  unfold analyze_patient_hematological_state in Hh.
  run_in Hh; inversion Hh; subst; clear Hh; try discriminate Hok.
  unfold analyze_patient_systemic_toxicity in Ht.
  run_in Ht; inversion Ht; subst; clear Ht; try discriminate Hok'.
  do 4 eexists.
  split; [reflexivity|]. split; [eassumption|].
  split; [reflexivity|]. split; [reflexivity|].
  unfold analyze_treatment.
  cbn [py_in getitem_str assoc String.eqb Ascii.eqb Bool.eqb bind ret
       Monad_either].
  match goal with
  | |- context [negb (py_all ?vs)] => destruct (py_all vs)
  end; reflexivity.
Qed.

(** X17.  When the hematological analysis succeeded and the systemic
    toxicity analysis returned an error, the treatment analysis run on
    the two results reports ["Systemic toxicity analysis failed: "]
    followed by the text of that error, for every gender. *)
Theorem failed_toxicity_analysis_blocks_treatment
    (patient_id hematological_analysis systemic_toxicity_analysis : pyval) :
  analyze_patient_hematological_state patient_id = inr hematological_analysis ->
  analyze_patient_systemic_toxicity patient_id = inr systemic_toxicity_analysis ->
  field hematological_analysis "error" = None ->
  field systemic_toxicity_analysis "error" <> None ->
  exists message,
    field systemic_toxicity_analysis "error" = Some (PStr message) /\
    forall gender,
      analyze_treatment patient_id gender hematological_analysis
                        systemic_toxicity_analysis
      = inr (treatment_error_result patient_id
               ("Systemic toxicity analysis failed: " ++ message)).
Proof.
  intros Hh Ht Hok Herr.
  unfold analyze_patient_hematological_state in Hh.
  run_in Hh; inversion Hh; subst; clear Hh; try discriminate Hok.
  unfold analyze_patient_systemic_toxicity in Ht.
  run_in Ht; inversion Ht; subst; clear Ht.
  - eexists. split; reflexivity.
  - eexists. split; reflexivity.
  - now elim Herr.
Qed.

(** X18.  When a hematological record is missing, the analysis reports
    its missing-data error with a null state, whatever the timestamps of
    the other record; [individual_states] holds [None] for the missing
    record and the ['value'] of the one that is present. *)
Theorem hematological_missing_reported
    (patient_id hemoglobin_record wbc_record hemoglobin_state wbc_level : pyval) :
  get_latest_abstracted_value patient_id "Hemoglobin_Level"
  = inr hemoglobin_record ->
  get_latest_abstracted_value patient_id "WBC_Level" = inr wbc_record ->
  truthy hemoglobin_record = false \/ truthy wbc_record = false ->
  value_or_none hemoglobin_record = inr hemoglobin_state ->
  value_or_none wbc_record = inr wbc_level ->
  analyze_patient_hematological_state patient_id
  = inr (hematological_failure patient_id hemoglobin_state wbc_level
           "Missing required abstracted data for hematological analysis") /\
  (truthy hemoglobin_record = false -> hemoglobin_state = PNone) /\
  (truthy wbc_record = false -> wbc_level = PNone) /\
  (truthy hemoglobin_record = true ->
   getitem_str hemoglobin_record "value" = inr hemoglobin_state) /\
  (truthy wbc_record = true ->
   getitem_str wbc_record "value" = inr wbc_level).
Proof.
  intros Hh Hw Hmissing Vh Vw. split; [|repeat split].
  - unfold analyze_patient_hematological_state.
    rewrite Hh. cbn [bind Monad_either]. rewrite Hw.
    assert (negb (truthy hemoglobin_record) || negb (truthy wbc_record) = true)
      as ->.
    { destruct Hmissing as [-> | ->]; [reflexivity | apply orb_true_r]. }
    rewrite Vh. cbn [bind Monad_either]. rewrite Vw. reflexivity.
  - intros Hf. rewrite (value_or_none_falsy _ Hf) in Vh. now inversion Vh.
  - intros Hf. rewrite (value_or_none_falsy _ Hf) in Vw. now inversion Vw.
  - intros Ht. now rewrite (value_or_none_truthy _ Ht) in Vh.
  - intros Ht. now rewrite (value_or_none_truthy _ Ht) in Vw.
Qed.

(** X19.  For two records that parse to Timestamps of one tz-awareness
    and to valid windows, the result is [True] exactly when each starts
    no later than the other ends; the comparison is not strict, so a
    window that ends at the instant the other starts overlaps it. *)
Theorem two_windows_overlap (aware : bool) (r1 r2 : pyval) (d1 d2 : window) :
  parsed_as aware r1 d1 ->
  parsed_as aware r2 d2 ->
  valid_interval d1 ->
  valid_interval d2 ->
  (check_temporal_overlap [r1; r2] = inr true <->
   w_start d1 <= w_end d2 /\ w_start d2 <= w_end d1) /\
  (w_end d1 = w_start d2 -> check_temporal_overlap [r1; r2] = inr true).
Proof.
  intros P1 P2 V1 V2. unfold valid_interval in V1, V2.
  assert (Forall2 (parsed_as aware) [r1; r2] [d1; d2]) as Hall.
  { constructor; [exact P1|]. constructor; [exact P2|]. constructor. }
  pose proof (parsed_list_true_iff aware [r1; r2] [d1; d2] (le_n 2) Hall)
    as Hiff.
  assert (common_instant [d1; d2] <->
          w_start d1 <= w_end d2 /\ w_start d2 <= w_end d1) as Hcommon.
  { split.
    - intros [t Ht].
      pose proof (Ht d1 (or_introl eq_refl)).
      pose proof (Ht d2 (or_intror (or_introl eq_refl))). lia.
    - intros [H12 H21]. exists (Z.max (w_start d1) (w_start d2)).
      intros d [<-|[<-|[]]]; lia. }
  split.
  - rewrite Hiff. exact Hcommon.
  - intros Htouch. apply Hiff, Hcommon. lia.
Qed.

End SimpleRuleEngine.

(** ** The engine on the sample data *)

Import Samples.

(** A list whose only element is [None] gives [True]: the claim that a
    [None] record always gives [False] fails on it. *)
Lemma single_null_record_overlaps :
  In PNone [PNone] /\ check_temporal_overlap epoch_parse no_comparison [PNone] = inr true.
Proof. split; [now left | reflexivity]. Qed.

Lemma null_record_result_witness :
  In PNone [record "Low" 0 10; PNone] /\
  check_temporal_overlap epoch_parse no_comparison [record "Low" 0 10; PNone] = inr false.
Proof.
  split; [simpl; auto|].
  apply (null_record_result epoch_parse no_comparison [record "Low" 0 10; PNone]).
  simpl; auto.
Defined.

Lemma overlap_witness :
  check_temporal_overlap epoch_parse no_comparison [record "Low" 0 10] = inr true /\
  check_temporal_overlap epoch_parse no_comparison [record "Low" 0 10; record "Low-Low" 5 20]
  = inr true /\
  check_temporal_overlap epoch_parse no_comparison [record "Low" 0 10; record "Low-Low" 11 20]
  = inr false.
Proof.
  destruct (overlap_is_latest_start_le_earliest_end epoch_parse no_comparison) as [Hshort Hlong].
  split; [apply Hshort; simpl; lia|]. split.
  - destruct (Hlong false [record "Low" 0 10; record "Low-Low" 5 20]
                    [mkWindow 0 10; mkWindow 5 20]) as (_ & Hcommon & _).
    + simpl; lia.
    + repeat constructor; discriminate.
    + apply Hcommon. exists 7. intros d [<-|[<-|[]]]; simpl; lia.
  - destruct (Hlong false [record "Low" 0 10; record "Low-Low" 11 20]
                    [mkWindow 0 10; mkWindow 11 20]) as (_ & _ & Hdisjoint & _).
    + simpl; lia.
    + repeat constructor; discriminate.
    + apply Hdisjoint. exists (mkWindow 0 10), (mkWindow 11 20).
      unfold ends_before; simpl. repeat split; auto; lia.
Defined.

(** Three valid records, the first containing the other two, which do
    not meet: the result is [False]. *)
Lemma containing_interval_without_overlap :
  Forall2 (parsed_as epoch_parse false) nested_records
          [mkWindow 0 10; mkWindow 1 2; mkWindow 3 4] /\
  Forall valid_interval [mkWindow 0 10; mkWindow 1 2; mkWindow 3 4] /\
  Forall (contains_interval (mkWindow 0 10)) [mkWindow 1 2; mkWindow 3 4] /\
  check_temporal_overlap epoch_parse no_comparison nested_records = inr false.
Proof.
  split; [repeat constructor; discriminate|].
  split; [repeat constructor; unfold valid_interval; simpl; lia|].
  split; [repeat constructor; simpl; lia|].
  reflexivity.
Qed.

Lemma unparseable_record_witness :
  (2 <= length [record "Low" 0 10; record_with_bad_start])%nat /\
  unparseable epoch_parse record_with_bad_start /\
  check_temporal_overlap epoch_parse no_comparison [record "Low" 0 10; record_with_bad_start]
  = inr false.
Proof.
  assert (unparseable epoch_parse record_with_bad_start) as Hbad.
  { split; [discriminate|]. exists ValueError. reflexivity. }
  split; [simpl; lia|]. split; [exact Hbad|].
  apply (unparseable_record_returns_false epoch_parse no_comparison).
  - simpl; lia.
  - exists record_with_bad_start. split; [simpl; auto | exact Hbad].
Defined.

(** The guard answers before the table is read: on a table with a row
    for the empty string the wrapper still gives [None]. *)
Lemma empty_input_witness :
  apply_rule empty_key_rules
    [("hemoglobin_state", PStr ""); ("wbc_level", PStr "Low-Low")]
  = PStr "Unknown" /\
  get_hematological_state apply_rule empty_key_rules (PStr "") (PStr "Low-Low") = PNone /\
  get_systemic_toxicity_grade apply_rule systemic_toxicity_rules
    (PStr "High") PNone (PStr "Erythema") (PStr "Edema") = PNone.
Proof.
  destruct (empty_input_gives_none apply_rule empty_key_rules
              systemic_toxicity_rules)
    as [Hh Ht].
  split; [reflexivity|]. split.
  - apply Hh. left. right. reflexivity.
  - apply Ht. right. left. left. reflexivity.
Defined.

Lemma upstream_error_witness :
  analyze_treatment apply_rule treatment_rules repr patient (PStr "Female")
                    hematological_missing toxicity_ok
  = inr treatment_failed /\
  analyze_treatment apply_rule treatment_rules repr patient (PStr "Female")
                    hematological_ok toxicity_missing
  = inr (treatment_error_result patient
           "Systemic toxicity analysis failed: Missing required abstracted data for: Fever_Level, Allergic-State").
Proof.
  split.
  - apply (upstream_error_is_propagated apply_rule treatment_rules repr patient
             (PStr "Female") hematological_missing toxicity_ok
             (PStr hematological_missing_message)).
    reflexivity.
  - apply (upstream_error_is_propagated apply_rule treatment_rules repr patient
             (PStr "Female") hematological_ok toxicity_missing
             (PStr "Missing required abstracted data for: Fever_Level, Allergic-State"));
      reflexivity.
Defined.

Lemma treatment_lookup_witness :
  analyze_treatment apply_rule treatment_rules repr patient (PStr "Female")
                    hematological_ok toxicity_ok
  = inr treatment_ok /\
  analyze_treatment apply_rule treatment_rules repr patient (PStr "")
                    hematological_ok toxicity_ok
  = inr (treatment_error_result patient
           "Missing required parameters for treatment analysis: gender").
Proof.
  split.
  - apply (treatment_lookup_inputs apply_rule treatment_rules repr patient (PStr "Female")
             hematological_ok toxicity_ok
             (PDict [("hemoglobin_state", PStr "Low");
                     ("wbc_level", PStr "Low-Low")])
             (PStr "Low") (PStr "Pancytopenia") (PStr "GRADE II"));
      reflexivity.
  - apply (treatment_lookup_inputs apply_rule treatment_rules repr patient (PStr "")
             hematological_ok toxicity_ok
             (PDict [("hemoglobin_state", PStr "Low");
                     ("wbc_level", PStr "Low-Low")])
             (PStr "Low") (PStr "Pancytopenia") (PStr "GRADE II"));
      reflexivity.
Defined.

Lemma hematological_round_trip_witness :
  analyze_patient_hematological_state epoch_parse no_comparison query
    store_complete apply_rule hematological_rules patient
  = inr hematological_ok /\
  field hematological_ok "error" = None /\
  exists individual_states hemoglobin_state wbc_level hematological_state,
    field hematological_ok "individual_states" = Some individual_states /\
    field individual_states "hemoglobin_state" = Some hemoglobin_state /\
    field individual_states "wbc_level" = Some wbc_level /\
    field hematological_ok "hematological_state" = Some hematological_state /\
    (truthy hemoglobin_state = true -> truthy wbc_level = true ->
     apply_rule hematological_rules
       [("hemoglobin_state", hemoglobin_state); ("wbc_level", wbc_level)]
     = hematological_state) /\
    (truthy hemoglobin_state = false \/ truthy wbc_level = false ->
     hematological_state = PNone).
Proof.
  split; [reflexivity|]. split; [reflexivity|].
  apply (hematological_round_trip epoch_parse no_comparison query
           store_complete apply_rule hematological_rules patient
           hematological_ok); reflexivity.
Defined.

(** With an empty hemoglobin value and a table that has a row for the
    empty string, the analysis succeeds with a null state while the
    lookup of the two reported values gives the output of that row. *)
Lemma empty_value_breaks_round_trip :
  analyze_patient_hematological_state epoch_parse no_comparison query
    store_empty_value apply_rule empty_key_rules patient
  = inr (hematological_success patient (PStr "") (PStr "Low-Low") PNone) /\
  field (hematological_success patient (PStr "") (PStr "Low-Low") PNone)
        "error" = None /\
  apply_rule empty_key_rules
    [("hemoglobin_state", PStr ""); ("wbc_level", PStr "Low-Low")]
  = PStr "Unknown" /\
  PStr "Unknown" <> PNone.
Proof. repeat split; try reflexivity. discriminate. Qed.

(** C8.  A start time that is the empty string does not make the parser
    raise: it parses to [NaT], the record is kept, and the list of two
    records gives [True] when the record comes second and [False] when it
    comes first. *)
Theorem null_timestamp_is_kept :
  epoch_parse (PStr "") = inr NaT /\
  check_temporal_overlap epoch_parse no_comparison
    [record "Low" 0 10; record_with_null_start] = inr true /\
  check_temporal_overlap epoch_parse no_comparison
    [record_with_null_start; record "Low" 0 10] = inr false.
Proof. repeat split; reflexivity. Qed.

(** The results of the treatment analysis break the common shape: its
    error results hold neither [individual_states] nor
    [clinical_inputs], and its successful results hold no marker. *)
Lemma treatment_result_lacks_inputs_and_marker :
  (analyze_patient_hematological_state epoch_parse no_comparison query store_missing
     apply_rule hematological_rules patient = inr hematological_missing /\
   analyze_patient_systemic_toxicity epoch_parse no_comparison query store_missing
     apply_rule systemic_toxicity_rules patient = inr toxicity_missing /\
   analyze_treatment apply_rule treatment_rules repr patient (PStr "Female")
     hematological_missing toxicity_missing = inr treatment_failed /\
   field treatment_failed "individual_states" = None /\
   field treatment_failed "clinical_inputs" = None) /\
  (analyze_patient_hematological_state epoch_parse no_comparison query store_complete
     apply_rule hematological_rules patient = inr hematological_ok /\
   analyze_patient_systemic_toxicity epoch_parse no_comparison query store_complete
     apply_rule systemic_toxicity_rules patient = inr toxicity_ok /\
   analyze_treatment apply_rule treatment_rules repr patient (PStr "Female")
     hematological_ok toxicity_ok = inr treatment_ok /\
   field treatment_ok "error" = None /\
   field treatment_ok "temporal_overlap" = None).
Proof. repeat split; reflexivity. Qed.

Lemma result_fields_witness :
  error_xor_marker hematological_missing "hematological_state" /\
  error_xor_marker toxicity_ok "systemic_toxicity_grade" /\
  error_xor_inputs treatment_ok.
Proof.
  split; [|split].
  - apply (result_fields epoch_parse no_comparison query store_missing apply_rule hematological_rules
             systemic_toxicity_rules treatment_rules repr patient
             (PStr "Female") hematological_ok toxicity_ok hematological_missing).
    reflexivity.
  - apply (result_fields epoch_parse no_comparison query store_complete apply_rule hematological_rules
             systemic_toxicity_rules treatment_rules repr patient
             (PStr "Female") hematological_ok toxicity_ok toxicity_ok).
    reflexivity.
  - apply (result_fields epoch_parse no_comparison query store_complete apply_rule hematological_rules
             systemic_toxicity_rules treatment_rules repr patient
             (PStr "Female") hematological_ok toxicity_ok treatment_ok).
    reflexivity.
Defined.

(** C3.  With no hemoglobin record, the hematological analysis returns a
    null derived value and a fixed error text: the text names neither
    [Hemoglobin_Level] nor [WBC_Level].  On the same store the systemic
    toxicity analysis lists its missing concepts. *)
Theorem hematological_error_names_no_concept :
  get_latest_abstracted_value query store_missing patient "Hemoglobin_Level"
  = inr PNone /\
  analyze_patient_hematological_state epoch_parse no_comparison query store_missing
    apply_rule hematological_rules patient = inr hematological_missing /\
  field hematological_missing "hematological_state" = Some PNone /\
  field hematological_missing "error" = Some (PStr hematological_missing_message) /\
  contains "Hemoglobin_Level" hematological_missing_message = false /\
  contains "WBC_Level" hematological_missing_message = false /\
  analyze_patient_systemic_toxicity epoch_parse no_comparison query store_missing
    apply_rule systemic_toxicity_rules patient = inr toxicity_missing.
Proof. repeat split; reflexivity. Qed.

(** A record without a ['value'] entry makes the hematological and the
    systemic toxicity analysis raise [KeyError]. *)
Lemma odd_record_raises :
  analyze_patient_hematological_state epoch_parse no_comparison query store_odd
    apply_rule hematological_rules patient = inl KeyError /\
  analyze_patient_systemic_toxicity epoch_parse no_comparison query store_odd
    apply_rule systemic_toxicity_rules patient = inl KeyError.
Proof. split; reflexivity. Qed.

(** A record that is the plain value string makes them raise
    [TypeError]. *)
Lemma plain_value_record_raises :
  get_latest_abstracted_value query store_plain patient "Hemoglobin_Level"
  = inr (PStr "Low") /\
  analyze_patient_hematological_state epoch_parse no_comparison query store_plain
    apply_rule hematological_rules patient = inl TypeError /\
  analyze_patient_systemic_toxicity epoch_parse no_comparison query store_plain
    apply_rule systemic_toxicity_rules patient = inl TypeError.
Proof. repeat split; reflexivity. Qed.

Lemma wellformed_store_missing (concept_name : string) :
  wellformed_fetch query store_missing patient concept_name.
Proof.
  unfold wellformed_fetch, get_latest_abstracted_value, store_missing, store_of.
  cbn [snd].
  destruct (concept_name =? "WBC_Level")%string;
    [|destruct (concept_name =? "Chills")%string;
      [|destruct (concept_name =? "Skin-Look")%string]].
  1-3: eexists; split; [reflexivity|]; right; do 2 eexists; split; reflexivity.
  eexists; split; [reflexivity|]. left. reflexivity.
Qed.

Lemma timestamped_sample (value : string) (start_time end_time : Z) :
  timestamped epoch_parse false (record value start_time end_time).
Proof.
  intros d Hd. exists (mkWindow start_time end_time). now inversion Hd.
Qed.

Lemma orderly_store_missing (concept_name : string) :
  orderly_fetch epoch_parse query store_missing false patient concept_name.
Proof.
  unfold orderly_fetch, get_latest_abstracted_value, store_missing, store_of.
  cbn [snd].
  destruct (concept_name =? "WBC_Level")%string;
    [|destruct (concept_name =? "Chills")%string;
      [|destruct (concept_name =? "Skin-Look")%string]];
    intros fetched Hfetched; inversion Hfetched; subst;
    intros d Hd; try discriminate Hd;
    inversion Hd; split; right; eexists; reflexivity.
Qed.

Lemma analyses_return_witness :
  (exists entries,
     analyze_patient_hematological_state epoch_parse no_comparison query store_missing
       apply_rule hematological_rules patient = inr (PDict entries)) /\
  (exists entries,
     analyze_patient_systemic_toxicity epoch_parse no_comparison query store_missing
       apply_rule systemic_toxicity_rules patient = inr (PDict entries)) /\
  (exists entries,
     analyze_treatment apply_rule treatment_rules repr patient (PStr "Female")
       hematological_missing toxicity_missing = inr (PDict entries)).
Proof.
  destruct (analyses_return_on_wellformed_records epoch_parse no_comparison query
              store_missing apply_rule hematological_rules systemic_toxicity_rules
              treatment_rules repr patient (PStr "Female") false)
    as (Hh & Ht & Htreat).
  split; [|split].
  - apply Hh; first [apply wellformed_store_missing | apply orderly_store_missing].
  - apply Ht. intros concept_name _.
    split; [apply wellformed_store_missing | apply orderly_store_missing].
  - apply Htreat; reflexivity.
Defined.

(** ** The further properties on the sample data *)

Lemma parsed_sample (value : string) (start_time end_time : Z) :
  parsed_as epoch_parse false (record value start_time end_time)
            (mkWindow start_time end_time).
Proof. split; [discriminate | reflexivity]. Qed.

Lemma comparability_witness :
  (exists b,
     check_temporal_overlap epoch_parse no_comparison
       [record "Low" 0 10; record_with_null_start] = inr b) /\
  check_temporal_overlap epoch_parse no_comparison
    [record "Low" 0 10; aware_record "Low-Low"] = inl TypeError.
Proof.
  destruct (overlap_check_comparability epoch_parse no_comparison)
    as [Htotal Hmixed].
  split.
  - destruct (Htotal false [record "Low" 0 10; record_with_null_start])
      as (b & Hb & _).
    + constructor; [apply timestamped_orderly, timestamped_sample|].
      constructor; [|constructor].
      intros d Hd. inversion Hd. split; [now left | right; eexists; reflexivity].
    + now exists b.
  - apply (Hmixed (record "Low" 0 10) (aware_record "Low-Low")
             (mkDt (Timestamp false 0) (Timestamp false 10))
             (mkDt (Timestamp true 1704067200000000000)
                   (Timestamp true 1704153600000000000))
             false 0 1704067200000000000);
      try reflexivity; discriminate.
Defined.

Lemma overlap_order_witness :
  Permutation [record "Low" 0 10; record "Low-Low" 11 20]
              [record "Low-Low" 11 20; record "Low" 0 10] /\
  check_temporal_overlap epoch_parse no_comparison
    [record "Low" 0 10; record "Low-Low" 11 20]
  = check_temporal_overlap epoch_parse no_comparison
      [record "Low-Low" 11 20; record "Low" 0 10].
Proof.
  split; [apply perm_swap|].
  apply (overlap_order_irrelevant epoch_parse no_comparison false).
  - repeat constructor; apply timestamped_sample.
  - apply perm_swap.
Defined.

Lemma overlap_of_selection_witness :
  check_temporal_overlap epoch_parse no_comparison
    [record "High" 0 10; record "Rigor" 1 10; record "Edema" 3 10] = inr true /\
  check_temporal_overlap epoch_parse no_comparison
    [record "Edema" 3 10; record "High" 0 10] = inr true.
Proof.
  split; [reflexivity|].
  apply (overlap_of_selection epoch_parse no_comparison false
           [record "High" 0 10; record "Rigor" 1 10; record "Edema" 3 10]).
  - simpl; lia.
  - repeat constructor; apply timestamped_sample.
  - intros r [<-|[<-|[]]]; simpl; auto.
  - reflexivity.
Defined.

Lemma overlap_iff_pairwise_witness :
  check_temporal_overlap epoch_parse no_comparison
    [record "Low" 0 10; record "Low-Low" 9 5] = inr false.
Proof.
  apply (overlap_iff_pairwise epoch_parse no_comparison false
           [record "Low" 0 10; record "Low-Low" 9 5]
           [mkWindow 0 10; mkWindow 9 5]).
  - simpl; lia.
  - repeat constructor; apply parsed_sample.
  - exists (mkWindow 9 5). simpl. split; [auto | lia].
Defined.

Lemma hematological_marker_witness :
  exists hemoglobin_record wbc_record,
    get_latest_abstracted_value query store_complete patient "Hemoglobin_Level"
    = inr hemoglobin_record /\
    get_latest_abstracted_value query store_complete patient "WBC_Level"
    = inr wbc_record /\
    truthy hemoglobin_record = true /\
    truthy wbc_record = true /\
    check_temporal_overlap epoch_parse no_comparison
      [hemoglobin_record; wbc_record] = inr true /\
    field hematological_ok "error" = None /\
    forall aware,
      timestamped epoch_parse aware hemoglobin_record ->
      timestamped epoch_parse aware wbc_record ->
      exists dh dw,
        parsed_as epoch_parse aware hemoglobin_record dh /\
        parsed_as epoch_parse aware wbc_record dw /\
        common_instant [dh; dw].
Proof.
  apply (hematological_marker_sound epoch_parse no_comparison query
           store_complete apply_rule hematological_rules patient
           hematological_ok); reflexivity.
Defined.

Lemma toxicity_marker_witness :
  exists fever_record chills_record skin_record allergic_record,
    get_latest_abstracted_value query store_complete patient "Fever_Level"
    = inr fever_record /\
    get_latest_abstracted_value query store_complete patient "Chills"
    = inr chills_record /\
    get_latest_abstracted_value query store_complete patient "Skin-Look"
    = inr skin_record /\
    get_latest_abstracted_value query store_complete patient "Allergic-State"
    = inr allergic_record /\
    check_temporal_overlap epoch_parse no_comparison
      [fever_record; chills_record; skin_record; allergic_record] = inr true /\
    field toxicity_ok "error" = None /\
    forall aware,
      Forall (timestamped epoch_parse aware)
        [fever_record; chills_record; skin_record; allergic_record] ->
      exists ds,
        Forall2 (parsed_as epoch_parse aware)
          [fever_record; chills_record; skin_record; allergic_record] ds /\
        common_instant ds.
Proof.
  apply (toxicity_marker_sound epoch_parse no_comparison query store_complete
           apply_rule systemic_toxicity_rules patient toxicity_ok);
    reflexivity.
Defined.

Lemma toxicity_missing_names_witness :
  analyze_patient_systemic_toxicity epoch_parse no_comparison query
    store_missing apply_rule systemic_toxicity_rules patient
  = inr toxicity_missing /\
  contains "Fever_Level"
    "Missing required abstracted data for: Fever_Level, Allergic-State" = true.
Proof.
  destruct (toxicity_error_names_missing_concepts epoch_parse no_comparison
              query store_missing apply_rule systemic_toxicity_rules patient
              PNone (record "Rigor" 1 10) (record "Erythema" 2 10) PNone
              PNone (PStr "Rigor") (PStr "Erythema") PNone)
    as [Hrun Hfever]; try reflexivity.
  - discriminate.
  - split; [exact Hrun | apply Hfever; reflexivity].
Defined.

Lemma hematological_no_overlap_witness :
  analyze_patient_hematological_state epoch_parse no_comparison query
    store_disjoint apply_rule hematological_rules patient
  = inr (hematological_failure patient (PStr "Low") (PStr "Low-Low")
           "No temporal overlap between hemoglobin and WBC measurements").
Proof.
  apply (hematological_no_overlap_reported epoch_parse no_comparison query
           store_disjoint apply_rule hematological_rules patient
           record_with_bad_start (record "Low-Low" 5 20)
           (PStr "Low") (PStr "Low-Low") false); try reflexivity.
  left. exists record_with_bad_start. split; [now left|].
  split; [discriminate|]. exists ValueError. reflexivity.
Defined.

Lemma toxicity_no_overlap_witness :
  analyze_patient_systemic_toxicity epoch_parse no_comparison query
    store_disjoint apply_rule systemic_toxicity_rules patient
  = inr (toxicity_failure patient (PStr "High") (PStr "Rigor")
           (PStr "Erythema") (PStr "Edema")
           "No temporal overlap between all required measurements").
Proof.
  apply (toxicity_no_overlap_reported epoch_parse no_comparison query
           store_disjoint apply_rule systemic_toxicity_rules patient
           (record "High" 0 10) (record "Rigor" 11 20)
           (record "Erythema" 0 30) (record "Edema" 0 30)
           (PStr "High") (PStr "Rigor") (PStr "Erythema") (PStr "Edema") false);
    try reflexivity.
  right. exists [mkWindow 0 10; mkWindow 11 20; mkWindow 0 30; mkWindow 0 30],
                (mkWindow 0 10), (mkWindow 11 20).
  split; [repeat constructor; apply parsed_sample|].
  unfold ends_before. simpl. split; [auto|]. split; [auto | lia].
Defined.

Lemma hematological_success_witness :
  analyze_patient_hematological_state epoch_parse no_comparison query
    store_complete apply_rule hematological_rules patient
  = inr hematological_ok.
Proof.
  apply (hematological_success_on_overlap epoch_parse no_comparison query
           store_complete apply_rule hematological_rules patient
           (record "Low" 0 10) (record "Low-Low" 5 20)
           (PStr "Low") (PStr "Low-Low") false
           (mkWindow 0 10) (mkWindow 5 20));
    try reflexivity; try apply parsed_sample.
  exists 7. intros d [<-|[<-|[]]]; simpl; lia.
Defined.

Lemma toxicity_success_witness :
  analyze_patient_systemic_toxicity epoch_parse no_comparison query
    store_complete apply_rule systemic_toxicity_rules patient
  = inr toxicity_ok.
Proof.
  apply (toxicity_success_on_overlap epoch_parse no_comparison query
           store_complete apply_rule systemic_toxicity_rules patient
           (record "High" 0 10) (record "Rigor" 1 10)
           (record "Erythema" 2 10) (record "Edema" 3 10)
           (PStr "High") (PStr "Rigor") (PStr "Erythema") (PStr "Edema") false
           [mkWindow 0 10; mkWindow 1 10; mkWindow 2 10; mkWindow 3 10]);
    try reflexivity.
  - repeat constructor; apply parsed_sample.
  - exists 5. intros d [<-|[<-|[<-|[<-|[]]]]]; simpl; lia.
Defined.

Lemma treatment_raises_witness :
  analyze_treatment apply_rule treatment_rules repr patient (PStr "Female")
    PNone toxicity_ok = inl TypeError /\
  analyze_treatment apply_rule treatment_rules repr patient (PStr "Female")
    hematological_ok PNone = inl TypeError /\
  analyze_treatment apply_rule treatment_rules repr patient (PStr "Female")
    (PDict [("patient_id", patient)]) toxicity_ok = inl KeyError.
Proof.
  split; [|split].
  - apply (proj1 (treatment_raises_on_malformed_upstream apply_rule
                    treatment_rules repr patient (PStr "Female") PNone
                    toxicity_ok)).
    reflexivity.
  - apply (proj1 (proj2 (treatment_raises_on_malformed_upstream apply_rule
                           treatment_rules repr patient (PStr "Female")
                           hematological_ok PNone)));
      reflexivity.
  - apply (proj2 (proj2 (treatment_raises_on_malformed_upstream apply_rule
                           treatment_rules repr patient (PStr "Female")
                           (PDict [("patient_id", patient)]) toxicity_ok))
             [("patient_id", patient)]); reflexivity.
Defined.

Lemma failed_hematological_witness :
  exists message,
    (message = "Missing required abstracted data for hematological analysis" \/
     message = "No temporal overlap between hemoglobin and WBC measurements") /\
    field hematological_missing "error" = Some (PStr message) /\
    forall gender systemic_toxicity_analysis,
      analyze_treatment apply_rule treatment_rules repr patient gender
        hematological_missing systemic_toxicity_analysis
      = inr (treatment_error_result patient
               ("Hematological analysis failed: " ++ message)).
Proof.
  apply (failed_hematological_analysis_blocks_treatment epoch_parse no_comparison query
           store_missing apply_rule hematological_rules treatment_rules repr
           patient hematological_missing).
  - reflexivity.
  - discriminate.
Defined.

Lemma null_state_witness :
  analyze_patient_hematological_state epoch_parse no_comparison query store_no_match
    apply_rule hematological_rules patient
  = inr (hematological_success patient (PStr "Low") (PStr "Normal") PNone) /\
  exists message,
    analyze_treatment apply_rule treatment_rules repr patient (PStr "Female")
      (hematological_success patient (PStr "Low") (PStr "Normal") PNone)
      toxicity_ok
    = inr (treatment_error_result patient message) /\
    contains "hematological_state" message = true.
Proof.
  split; [reflexivity|].
  apply (null_state_surfaces_in_treatment epoch_parse no_comparison query store_no_match
           apply_rule hematological_rules treatment_rules repr patient
           (PStr "Female")
           (hematological_success patient (PStr "Low") (PStr "Normal") PNone)
           toxicity_ok (PStr "GRADE II")); reflexivity.
Defined.

Lemma treatment_pipeline_witness :
  exists hemoglobin_record hemoglobin_state hematological_state grade,
    get_latest_abstracted_value query store_complete patient "Hemoglobin_Level"
    = inr hemoglobin_record /\
    getitem_str hemoglobin_record "value" = inr hemoglobin_state /\
    field hematological_ok "hematological_state" = Some hematological_state /\
    field toxicity_ok "systemic_toxicity_grade" = Some grade /\
    analyze_treatment apply_rule treatment_rules repr patient (PStr "Female")
      hematological_ok toxicity_ok
    = inr (if py_all [PStr "Female"; hemoglobin_state; hematological_state; grade]
           then
             PDict [("patient_id", patient);
                    ("clinical_inputs",
                       PDict (treatment_inputs (PStr "Female") hemoglobin_state
                                hematological_state grade));
                    ("treatment_recommendations",
                       apply_rule treatment_rules
                         (treatment_inputs (PStr "Female") hemoglobin_state
                            hematological_state grade))]
           else
             treatment_error_result patient
               ("Missing required parameters for treatment analysis: "
                ++ join ", "
                     (missing_parameters (PStr "Female") hemoglobin_state
                        hematological_state grade))).
Proof.
  apply (treatment_uses_fetched_hemoglobin_value epoch_parse no_comparison query
           store_complete apply_rule hematological_rules
           systemic_toxicity_rules treatment_rules repr patient (PStr "Female")
           hematological_ok toxicity_ok); reflexivity.
Defined.

Lemma latest_value_witness :
  get_latest_abstracted_value query store_missing patient "Hemoglobin_Level"
  = inr PNone /\
  get_latest_abstracted_value query store_complete patient "Hemoglobin_Level"
  = inr (record "Low" 0 10) /\
  get_latest_abstracted_value query (store_of (fun _ => PList [PTuple []]))
    patient "Hemoglobin_Level" = inl IndexError.
Proof.
  split; [|split].
  - apply (latest_value_is_first_column query store_missing patient
             "Hemoglobin_Level"). reflexivity.
  - apply (latest_value_is_first_column query store_complete patient
             "Hemoglobin_Level") with (columns := []) (rows := []).
    left. reflexivity.
  - apply (latest_value_is_first_column query
             (store_of (fun _ => PList [PTuple []])) patient
             "Hemoglobin_Level") with (rows := []).
    left. reflexivity.
Defined.

Lemma failed_toxicity_witness :
  exists message,
    field (toxicity_failure patient PNone PNone PNone PNone
             "Missing required abstracted data for: Fever_Level, Chills, Skin-Look, Allergic-State")
          "error" = Some (PStr message) /\
    forall gender,
      analyze_treatment apply_rule treatment_rules repr patient gender
        (hematological_success patient (PStr "Low") (PStr "Normal") PNone)
        (toxicity_failure patient PNone PNone PNone PNone
           "Missing required abstracted data for: Fever_Level, Chills, Skin-Look, Allergic-State")
      = inr (treatment_error_result patient
               ("Systemic toxicity analysis failed: " ++ message)).
Proof.
  apply (failed_toxicity_analysis_blocks_treatment epoch_parse no_comparison query
           store_no_match apply_rule hematological_rules
           systemic_toxicity_rules treatment_rules repr patient
           (hematological_success patient (PStr "Low") (PStr "Normal") PNone)
           (toxicity_failure patient PNone PNone PNone PNone
              "Missing required abstracted data for: Fever_Level, Chills, Skin-Look, Allergic-State"));
    try reflexivity.
  discriminate.
Defined.

Lemma hematological_missing_witness :
  analyze_patient_hematological_state epoch_parse no_comparison query store_missing
    apply_rule hematological_rules patient = inr hematological_missing.
Proof.
  apply (hematological_missing_reported epoch_parse no_comparison query store_missing
           apply_rule hematological_rules patient
           PNone (record "Low-Low" 5 20) PNone (PStr "Low-Low")).
  - reflexivity.
  - reflexivity.
  - left. reflexivity.
  - reflexivity.
  - reflexivity.
Defined.

Lemma two_windows_witness :
  check_temporal_overlap epoch_parse no_comparison [record "Low" 0 10; record "Low-Low" 10 20]
  = inr true.
Proof.
  destruct (two_windows_overlap epoch_parse no_comparison false
              (record "Low" 0 10) (record "Low-Low" 10 20)
              (mkWindow 0 10) (mkWindow 10 20)) as [_ Htouch];
    try apply parsed_sample; try (unfold valid_interval; simpl; lia).
  apply Htouch. reflexivity.
Defined.
